(** * Leave-request workflow of the hostel backend

    A shallow embedding of the leave controller
    ([createLeaveRequest], [getAllLeaveRequests], [getMyLeaveRequests],
    [parentApproveOrReject], [updateLeaveStatus], [cancelMyLeaveRequest])
    over an explicit database state, and the properties of its
    state machine, audit trail and tenant scoping.

    Conventions of the embedding:
    - an [ObjectId] is a natural number; request parameters are taken as
      already cast to ids;
    - a JavaScript [Date] is its time value, [None] standing for an
      Invalid Date (NaN); every [new Date()] of one request reads the
      same instant [now];
    - an optional JavaScript value ([undefined] or a string) is an
      [option string];
    - a string is the sequence of the bytes of its UTF-8 encoding;
    - a handler is a function from the database to a response and the
      database it leaves behind; the [catch] block of a handler is the
      500 response;
    - the JSON body of a response is represented by the documents it is
      projected from. *)

From stdpp Require Import gmap strings list sorting.
From Stdlib Require Import ZArith.

Definition ObjectId := nat.
Definition JsDate := option Z.

(** ** JavaScript helpers *)

(** [!v] for a value that is [undefined] or a string. *)
Definition falsy (v : option string) : bool :=
  match v with
  | None => true
  | Some s => String.eqb s ""
  end.

(** [xs.includes(x)] on an array of string literals. *)
Definition includes (xs : list string) (x : string) : bool :=
  existsb (String.eqb x) xs.

(** The byte of a character of a string. *)
Definition byteOf (c : Ascii.ascii) : nat := Ascii.nat_of_ascii c.

(** The white space and line terminators of one byte: SP, TAB, LF, VT,
    FF, CR. *)
Definition isWhiteSpace (c : Ascii.ascii) : bool :=
  existsb (fun n => Nat.eqb (Ascii.nat_of_ascii c) n) [32; 9; 10; 11; 12; 13].

(** The white space of two bytes: U+00A0 (C2 A0). *)
Definition isWhiteSpace2 (c1 c2 : Ascii.ascii) : bool :=
  Nat.eqb (byteOf c1) 194 && Nat.eqb (byteOf c2) 160.

(** The white space and line terminators of three bytes: U+1680
    (E1 9A 80), U+2000 to U+200A (E2 80 80 to E2 80 8A), U+2028 and
    U+2029 (E2 80 A8, E2 80 A9), U+202F (E2 80 AF), U+205F (E2 81 9F),
    U+3000 (E3 80 80) and U+FEFF (EF BB BF). *)
Definition isWhiteSpace3 (c1 c2 c3 : Ascii.ascii) : bool :=
  let b1 := byteOf c1 in
  let b2 := byteOf c2 in
  let b3 := byteOf c3 in
  (Nat.eqb b1 225 && Nat.eqb b2 154 && Nat.eqb b3 128)
  || (Nat.eqb b1 226 && Nat.eqb b2 128
      && ((Nat.leb 128 b3 && Nat.leb b3 138)
          || existsb (Nat.eqb b3) [168; 169; 175]))
  || (Nat.eqb b1 226 && Nat.eqb b2 129 && Nat.eqb b3 159)
  || (Nat.eqb b1 227 && Nat.eqb b2 128 && Nat.eqb b3 128)
  || (Nat.eqb b1 239 && Nat.eqb b2 187 && Nat.eqb b3 191).

(** [s.trimStart()]: the white space characters the string starts with
    are dropped, whatever the number of their bytes. *)
Fixpoint trimStart (s : string) : string :=
  match s with
  | String c1 s1 =>
      if isWhiteSpace c1 then trimStart s1
      else
        match s1 with
        | String c2 s2 =>
            if isWhiteSpace2 c1 c2 then trimStart s2
            else
              match s2 with
              | String c3 s3 =>
                  if isWhiteSpace3 c1 c2 c3 then trimStart s3 else s
              | EmptyString => s
              end
        | EmptyString => s
        end
  | EmptyString => EmptyString
  end.

(** The string is made of white space characters only. *)
Fixpoint allWhiteSpace (s : string) : bool :=
  match s with
  | String c1 s1 =>
      if isWhiteSpace c1 then allWhiteSpace s1
      else
        match s1 with
        | String c2 s2 =>
            if isWhiteSpace2 c1 c2 then allWhiteSpace s2
            else
              match s2 with
              | String c3 s3 => isWhiteSpace3 c1 c2 c3 && allWhiteSpace s3
              | EmptyString => false
              end
        | EmptyString => false
        end
  | EmptyString => true
  end.

(** [s.trimEnd()]: the string is cut where only white space follows. *)
Fixpoint trimEnd (s : string) : string :=
  match s with
  | String c s' =>
      if allWhiteSpace s then EmptyString else String c (trimEnd s')
  | EmptyString => EmptyString
  end.

(** [s.trim()]. *)
Definition trim (s : string) : string := trimEnd (trimStart s).

(** [a >= b] on two dates: a comparison with NaN is false. *)
Definition date_ge (a b : JsDate) : bool :=
  match a, b with
  | Some x, Some y => (y <=? x)%Z
  | _, _ => false
  end.

(** ** Collections *)

(** Removing the first document that matches, as [findByIdAndDelete]
    does on a collection held as a list. *)
Fixpoint deleteFirst {A : Type} (P : A -> bool) (coll : list A) : list A :=
  match coll with
  | [] => []
  | x :: rest => if P x then rest else x :: deleteFirst P rest
  end.

Module User.
Record t := mk { _id : ObjectId; name : string }.

Definition findById (id : ObjectId) (coll : list t) : option t :=
  find (fun u => Nat.eqb (_id u) id) coll.

(** [User.findByIdAndDelete(id)]. *)
Definition findByIdAndDelete (id : ObjectId) (coll : list t) : list t :=
  deleteFirst (fun u => Nat.eqb (_id u) id) coll.

(** [User.deleteMany({ _id: { $in: ids } })]. *)
Definition deleteMany (ids : list ObjectId) (coll : list t) : list t :=
  List.filter (fun u => negb (existsb (Nat.eqb (_id u)) ids)) coll.
End User.

Module Student.
Record t := mk {
  _id : ObjectId;
  userId : ObjectId;
  institutionId : ObjectId;
  room : option string;
  rollNumber : option string
}.

(** [Student.findOne({ userId, institutionId })]. *)
Definition findOne (uid inst : ObjectId) (coll : list t) : option t :=
  find (fun s => Nat.eqb (userId s) uid && Nat.eqb (institutionId s) inst) coll.

Definition findById (id : ObjectId) (coll : list t) : option t :=
  find (fun s => Nat.eqb (_id s) id) coll.

(** [Student.findOne({ _id: id, institutionId })]. *)
Definition findOneById (id inst : ObjectId) (coll : list t) : option t :=
  find (fun s => Nat.eqb (_id s) id && Nat.eqb (institutionId s) inst) coll.

(** [Student.findByIdAndDelete(id)]. *)
Definition findByIdAndDelete (id : ObjectId) (coll : list t) : list t :=
  deleteFirst (fun s => Nat.eqb (_id s) id) coll.
End Student.

Module Parent.
Record t := mk {
  _id : ObjectId;
  userId : ObjectId;
  institutionId : ObjectId;
  studentId : ObjectId
}.

(** [Parent.findOne({ userId, institutionId })]. *)
Definition findOne (uid inst : ObjectId) (coll : list t) : option t :=
  find (fun p => Nat.eqb (userId p) uid && Nat.eqb (institutionId p) inst) coll.

(** The filter [{ studentId, institutionId }]. *)
Definition ofStudent (sid inst : ObjectId) (p : t) : bool :=
  Nat.eqb (studentId p) sid && Nat.eqb (institutionId p) inst.

(** [Parent.find({ studentId, institutionId })]. *)
Definition find (sid inst : ObjectId) (coll : list t) : list t :=
  List.filter (ofStudent sid inst) coll.

(** [Parent.deleteMany({ studentId, institutionId })]. *)
Definition deleteMany (sid inst : ObjectId) (coll : list t) : list t :=
  List.filter (fun p => negb (ofStudent sid inst p)) coll.
End Parent.

Module HistoryEntry.
Record t := mk {
  status : string;
  updatedBy : option ObjectId;
  role : string;
  reason : option string;
  timestamp : Z
}.
End HistoryEntry.

(** The update document [updateData] of [updateLeaveStatus].  A key that
    is absent, or whose value is [undefined], is [None]: the update leaves
    that field of the stored document as it is. *)
Module UpdateData.
Record t := mk {
  status : string;
  approvedBy : ObjectId;
  statusHistory : list HistoryEntry.t;
  approvedAt : option Z;
  rejectionReason : option string
}.
End UpdateData.

(** A leave document.  Its [_id] is the key under which the collection
    holds it: a loaded document is the pair of its key and its fields. *)
Module Leave.
Record t := mk {
  institutionId : ObjectId;
  studentId : ObjectId;
  reason : string;
  type : string;
  outDate : JsDate;
  inDate : JsDate;
  outTime : option string;
  inTime : option string;
  status : string;
  parentApprovalStatus : string;
  parentApprovedBy : option ObjectId;
  parentApprovedAt : option Z;
  parentRejectionReason : option string;
  approvedBy : option ObjectId;
  approvedAt : option Z;
  rejectionReason : option string;
  statusHistory : list HistoryEntry.t;
  createdAt : Z
}.

(** Modelled from the spec: the schema of models/Leave.model.js, which
    is not among the sources.  The data model makes [reason] a required
    non-empty text, [type] a required label and both dates dates; a
    document that breaks this is refused by [create] (the validation
    error is thrown, and the handler answers 500). *)
Definition schemaValid (l : t) : bool :=
  negb (String.eqb (reason l) "") && negb (String.eqb (type l) "")
  && bool_decide (is_Some (outDate l)) && bool_decide (is_Some (inDate l)).

(** [Leave.findOne({ _id: id, institutionId })]. *)
Definition findOne (id inst : ObjectId) (coll : gmap ObjectId t) : option t :=
  match coll !! id with
  | Some l => if Nat.eqb (institutionId l) inst then Some l else None
  | None => None
  end.

Definition findById (id : ObjectId) (coll : gmap ObjectId t) : option t :=
  coll !! id.

(** [.sort({ createdAt: -1 })]. *)
Definition newerFirst (a b : ObjectId * t) : Prop :=
  (createdAt b.2 <= createdAt a.2)%Z.

#[global] Instance newerFirst_dec (a b : ObjectId * t)
  : Decision (newerFirst a b) := Z_le_dec (createdAt b.2) (createdAt a.2).

(** [Leave.find(filter).sort({ createdAt: -1 })], the filter given as a
    predicate on documents. *)
Definition find (P : t -> bool) (coll : gmap ObjectId t)
  : list (ObjectId * t) :=
  merge_sort newerFirst (List.filter (fun d => P d.2) (map_to_list coll)).

(** Assignments [doc.field = value]. *)
Definition set_status (v : string) (l : t) : t :=
  mk (institutionId l) (studentId l) (reason l) (type l) (outDate l)
     (inDate l) (outTime l) (inTime l) v (parentApprovalStatus l)
     (parentApprovedBy l) (parentApprovedAt l) (parentRejectionReason l)
     (approvedBy l) (approvedAt l) (rejectionReason l) (statusHistory l)
     (createdAt l).

Definition set_parentApprovalStatus (v : string) (l : t) : t :=
  mk (institutionId l) (studentId l) (reason l) (type l) (outDate l)
     (inDate l) (outTime l) (inTime l) (status l) v
     (parentApprovedBy l) (parentApprovedAt l) (parentRejectionReason l)
     (approvedBy l) (approvedAt l) (rejectionReason l) (statusHistory l)
     (createdAt l).

Definition set_parentApprovedBy (v : option ObjectId) (l : t) : t :=
  mk (institutionId l) (studentId l) (reason l) (type l) (outDate l)
     (inDate l) (outTime l) (inTime l) (status l) (parentApprovalStatus l)
     v (parentApprovedAt l) (parentRejectionReason l)
     (approvedBy l) (approvedAt l) (rejectionReason l) (statusHistory l)
     (createdAt l).

Definition set_parentApprovedAt (v : option Z) (l : t) : t :=
  mk (institutionId l) (studentId l) (reason l) (type l) (outDate l)
     (inDate l) (outTime l) (inTime l) (status l) (parentApprovalStatus l)
     (parentApprovedBy l) v (parentRejectionReason l)
     (approvedBy l) (approvedAt l) (rejectionReason l) (statusHistory l)
     (createdAt l).

Definition set_parentRejectionReason (v : option string) (l : t) : t :=
  mk (institutionId l) (studentId l) (reason l) (type l) (outDate l)
     (inDate l) (outTime l) (inTime l) (status l) (parentApprovalStatus l)
     (parentApprovedBy l) (parentApprovedAt l) v
     (approvedBy l) (approvedAt l) (rejectionReason l) (statusHistory l)
     (createdAt l).

Definition set_approvedBy (v : option ObjectId) (l : t) : t :=
  mk (institutionId l) (studentId l) (reason l) (type l) (outDate l)
     (inDate l) (outTime l) (inTime l) (status l) (parentApprovalStatus l)
     (parentApprovedBy l) (parentApprovedAt l) (parentRejectionReason l)
     v (approvedAt l) (rejectionReason l) (statusHistory l)
     (createdAt l).

Definition set_approvedAt (v : option Z) (l : t) : t :=
  mk (institutionId l) (studentId l) (reason l) (type l) (outDate l)
     (inDate l) (outTime l) (inTime l) (status l) (parentApprovalStatus l)
     (parentApprovedBy l) (parentApprovedAt l) (parentRejectionReason l)
     (approvedBy l) v (rejectionReason l) (statusHistory l)
     (createdAt l).

Definition set_rejectionReason (v : option string) (l : t) : t :=
  mk (institutionId l) (studentId l) (reason l) (type l) (outDate l)
     (inDate l) (outTime l) (inTime l) (status l) (parentApprovalStatus l)
     (parentApprovedBy l) (parentApprovedAt l) (parentRejectionReason l)
     (approvedBy l) (approvedAt l) v (statusHistory l)
     (createdAt l).

Definition set_statusHistory (v : list HistoryEntry.t) (l : t) : t :=
  mk (institutionId l) (studentId l) (reason l) (type l) (outDate l)
     (inDate l) (outTime l) (inTime l) (status l) (parentApprovalStatus l)
     (parentApprovedBy l) (parentApprovedAt l) (parentRejectionReason l)
     (approvedBy l) (approvedAt l) (rejectionReason l) v
     (createdAt l).

(** [Leave.create(fields)]: the new document takes a fresh [_id]; [None]
    when the schema refuses it (the validation error is thrown). *)
Definition create (doc : t) (coll : gmap ObjectId t)
  : option (ObjectId * gmap ObjectId t) :=
  let id := fresh (dom coll) in
  if schemaValid doc then Some (id, <[id := doc]> coll) else None.

(** The effect of an update document on the stored document. *)
Definition applyUpdate (u : UpdateData.t) (l : t) : t :=
  let l1 := set_status (UpdateData.status u) l in
  let l2 := set_approvedBy (Some (UpdateData.approvedBy u)) l1 in
  let l3 := set_statusHistory (UpdateData.statusHistory u) l2 in
  let l4 := match UpdateData.approvedAt u with
            | Some at_ => set_approvedAt (Some at_) l3
            | None => l3
            end in
  match UpdateData.rejectionReason u with
  | Some r => set_rejectionReason (Some r) l4
  | None => l4
  end.

(** [Leave.findOneAndUpdate({ _id: id, institutionId }, updateData,
    { new: true })]: the updated document and the collection, [None] when
    the filter matches nothing. *)
Definition findOneAndUpdate (id inst : ObjectId) (u : UpdateData.t)
    (coll : gmap ObjectId t) : option (t * gmap ObjectId t) :=
  match findOne id inst coll with
  | Some l => let l' := applyUpdate u l in Some (l', <[id := l']> coll)
  | None => None
  end.

(** [doc.save()] of the document loaded under [id] and modified since:
    it is written back under its [_id], with no condition on what the
    stored document holds by then; [None] when the document is gone (the
    save throws).  The handlers save the document they have just loaded,
    so that writing its modified paths and writing it whole are the
    same. *)
Definition save (id : ObjectId) (doc : t) (coll : gmap ObjectId t)
  : option (gmap ObjectId t) :=
  match coll !! id with
  | Some _ => Some (<[id := doc]> coll)
  | None => None
  end.

(** [Leave.deleteMany({ studentId, institutionId })]. *)
Definition deleteMany (sid inst : ObjectId) (coll : gmap ObjectId t)
  : gmap ObjectId t :=
  filter (fun d => ~ (studentId d.2 = sid /\ institutionId d.2 = inst)) coll.
End Leave.

Record Db := mkDb {
  users : list User.t;
  students : list Student.t;
  parents : list Parent.t;
  leaves : gmap ObjectId Leave.t
}.

Definition withLeaves (db : Db) (ls : gmap ObjectId Leave.t) : Db :=
  mkDb (users db) (students db) (parents db) ls.

(** ** Requests and responses *)

(** [req.user], as the authentication middleware leaves it. *)
Record AuthUser := mkUser {
  user_id : ObjectId;
  user_institutionId : ObjectId
}.

Inductive Payload :=
| NoPayload
| OneLeave (id : ObjectId) (l : Leave.t)
| ManyLeaves (ls : list (ObjectId * Leave.t)).

(** [res.status(statusCode).json({ success, message, ... })]. *)
Record Response := mkRes {
  statusCode : nat;
  success : bool;
  message : option string;
  payload : Payload
}.

Definition failure (code : nat) (msg : string) : Response :=
  mkRes code false (Some msg) NoPayload.

Definition lowerChar (c : Ascii.ascii) : Ascii.ascii :=
  let n := Ascii.nat_of_ascii c in
  if Nat.leb 65 n && Nat.leb n 90 then Ascii.ascii_of_nat (n + 32) else c.

(** [s.toLowerCase()] on ASCII text. *)
Fixpoint toLowerCase (s : string) : string :=
  match s with
  | String c s' => String (lowerChar c) (toLowerCase s')
  | EmptyString => EmptyString
  end.

(** The student document and the name of its user that
    [populate({ path: 'studentId', populate: { path: 'userId' } })] puts
    in place of [leave.studentId]; [None] when either is missing, where
    reading [leave.studentId.userId.name] throws. *)
Definition populatedStudentName (db : Db) (l : Leave.t) : option string :=
  match Student.findById (Leave.studentId l) (students db) with
  | Some st =>
      match User.findById (Student.userId st) (users db) with
      | Some u => Some (User.name u)
      | None => None
      end
  | None => None
  end.

(** ** The handlers *)

Record CreateBody := mkCreateBody {
  body_reason : option string;
  body_type : option string;
  body_outDate : option JsDate;   (* [None]: no date text given *)
  body_inDate : option JsDate;
  body_outTime : option string;
  body_inTime : option string
}.

Definition createLeaveRequest (now : Z) (user : AuthUser) (body : CreateBody)
    (db : Db) : Response * Db :=
  if falsy (body_reason body) || falsy (body_type body)
     || negb (bool_decide (is_Some (body_outDate body)))
     || negb (bool_decide (is_Some (body_inDate body)))
  then (failure 400 "Please provide reason, type, out date, and in date", db)
  else
    let reason := default "" (body_reason body) in
    let type := default "" (body_type body) in
    let outDateObj := default None (body_outDate body) in
    let inDateObj := default None (body_inDate body) in
    if date_ge outDateObj inDateObj
    then (failure 400 "Out date must be before in date", db)
    else
      match Student.findOne (user_id user) (user_institutionId user) (students db) with
      | None => (failure 404 "Student profile not found", db)
      | Some student =>
          let fields :=
            Leave.mk (user_institutionId user) (Student._id student)
              (trim reason) type outDateObj inDateObj
              (body_outTime body) (body_inTime body)
              "PendingParent" "Pending" None None None None None None
              [HistoryEntry.mk "PendingParent" None "student" None now]
              now   (* [createdAt], which the schema's timestamps set *) in
          match Leave.create fields (leaves db) with
          | None => (failure 500 "Server error while creating leave request", db)
          | Some (id, ls) =>
              let leave := fields in
              let db' := withLeaves db ls in
              match populatedStudentName db' leave with
              | None =>
                  (failure 500 "Server error while creating leave request", db')
              | Some _ =>
                  (mkRes 201 true (Some "Leave request submitted successfully")
                     (OneLeave id leave), db')
              end
          end
      end.

(** [status] is the query parameter of the request. *)
Definition getAllLeaveRequests (user : AuthUser) (status : option string)
    (db : Db) : Response * Db :=
  let filter l :=
    (if falsy status then true
     else String.eqb (Leave.status l) (default "" status))
    && Nat.eqb (Leave.institutionId l) (user_institutionId user) in
  (mkRes 200 true None (ManyLeaves (Leave.find filter (leaves db))), db).

Definition getMyLeaveRequests (user : AuthUser) (db : Db) : Response * Db :=
  match Student.findOne (user_id user) (user_institutionId user) (students db) with
  | None => (failure 404 "Student profile not found", db)
  | Some student =>
      let filter l :=
        Nat.eqb (Leave.studentId l) (Student._id student)
        && Nat.eqb (Leave.institutionId l) (user_institutionId user) in
      (mkRes 200 true None (ManyLeaves (Leave.find filter (leaves db))), db)
  end.

(** A handler that changes a leave reads and checks first and writes
    after: the part up to the write gives either the response of a
    failed check or what is to be written, the second part writes it
    and answers.  The handler is the two run one after the other. *)

(** [parentApproveOrReject] up to [leave.save()]: the loaded document
    with the decision recorded in it. *)
Definition parentApproveOrReject_check (now : Z) (user : AuthUser)
    (id : ObjectId) (status : string) (rejectionReason : option string)
    (db : Db) : Response + Leave.t :=
  if negb (includes ["Approved"; "Rejected"] status)
  then inl (failure 400 "Invalid status. Must be Approved or Rejected")
  else
    match Parent.findOne (user_id user) (user_institutionId user) (parents db) with
    | None => inl (failure 403 "Parent profile not found")
    | Some parent =>
        match Leave.findOne id (user_institutionId user) (leaves db) with
        | None => inl (failure 404 "Leave request not found")
        | Some leave =>
            match Student.findById (Leave.studentId leave) (students db) with
            | None =>   (* [leave.studentId] is null: reading its [_id] throws *)
                inl (failure 500 "Server error while updating leave request")
            | Some student =>
                if negb (Nat.eqb (Student._id student) (Parent.studentId parent))
                then inl (failure 403 "Not authorized to approve this leave request")
                else if negb (String.eqb (Leave.status leave) "PendingParent")
                then inl (failure 400 "This leave request is not awaiting parent approval")
                else
                  let newStatus :=
                    if String.eqb status "Approved"
                    then "ApprovedByParent" else "RejectedByParent" in
                  let historyEntry :=
                    HistoryEntry.mk newStatus (Some (user_id user)) "parent"
                      (if String.eqb status "Rejected" then rejectionReason else None)
                      now in
                  let l1 := Leave.set_status newStatus leave in
                  let l2 := Leave.set_parentApprovalStatus status l1 in
                  let l3 := Leave.set_parentApprovedBy (Some (user_id user)) l2 in
                  let l4 := Leave.set_parentApprovedAt (Some now) l3 in
                  let l5 :=
                    if String.eqb status "Rejected"
                    then Leave.set_parentRejectionReason rejectionReason l4
                    else l4 in
                  inr (Leave.set_statusHistory
                         (Leave.statusHistory l5 ++ [historyEntry]) l5)
            end
        end
    end.

(** [leave.save()] and the answer of [parentApproveOrReject]. *)
Definition parentApproveOrReject_commit (id : ObjectId) (status : string)
    (leave : Leave.t) (db : Db) : Response * Db :=
  match Leave.save id leave (leaves db) with
  | None => (failure 500 "Server error while updating leave request", db)
  | Some ls =>
      let db' := withLeaves db ls in
      match Leave.findById id ls with
      | None => (failure 500 "Server error while updating leave request", db')
      | Some populated =>
          (mkRes 200 true
             (Some ("Leave request " +:+ toLowerCase status +:+ " by parent"))
             (OneLeave id populated), db')
      end
  end.

Definition parentApproveOrReject (now : Z) (user : AuthUser) (id : ObjectId)
    (status : string) (rejectionReason : option string) (db : Db)
  : Response * Db :=
  match parentApproveOrReject_check now user id status rejectionReason db with
  | inl res => (res, db)
  | inr leave => parentApproveOrReject_commit id status leave db
  end.

(** [updateLeaveStatus] up to [Leave.findOneAndUpdate]: the update
    document. *)
Definition updateLeaveStatus_check (now : Z) (user : AuthUser) (id : ObjectId)
    (status : string) (rejectionReason : option string) (db : Db)
  : Response + UpdateData.t :=
  if negb (includes ["Approved"; "Rejected"] status)
  then inl (failure 400 "Invalid status. Must be Approved or Rejected")
  else
    match Leave.findOne id (user_institutionId user) (leaves db) with
    | None => inl (failure 404 "Leave request not found")
    | Some leave =>
        if negb (String.eqb (Leave.status leave) "ApprovedByParent")
        then inl (failure 400
               "Only parent-approved requests can be approved/rejected by warden")
        else
          let entry :=
            HistoryEntry.mk status (Some (user_id user)) "warden"
              (if String.eqb status "Rejected" then rejectionReason else None)
              now in
          inr (UpdateData.mk status (user_id user)
                 (Leave.statusHistory leave ++ [entry])
                 (if String.eqb status "Approved" then Some now else None)
                 (if String.eqb status "Approved" then None
                  else if String.eqb status "Rejected" then rejectionReason
                  else None))
    end.

(** [Leave.findOneAndUpdate] and the answer of [updateLeaveStatus]. *)
Definition updateLeaveStatus_commit (user : AuthUser) (id : ObjectId)
    (status : string) (updateData : UpdateData.t) (db : Db) : Response * Db :=
  match Leave.findOneAndUpdate id (user_institutionId user) updateData (leaves db) with
  | None => (failure 404 "Leave request not found", db)
  | Some (updated, ls) =>
      let db' := withLeaves db ls in
      match populatedStudentName db' updated with
      | None => (failure 500 "Server error while updating leave request", db')
      | Some _ =>
          (mkRes 200 true
             (Some ("Leave request " +:+ toLowerCase status +:+ " successfully"))
             (OneLeave id updated), db')
      end
  end.

Definition updateLeaveStatus (now : Z) (user : AuthUser) (id : ObjectId)
    (status : string) (rejectionReason : option string) (db : Db)
  : Response * Db :=
  match updateLeaveStatus_check now user id status rejectionReason db with
  | inl res => (res, db)
  | inr updateData => updateLeaveStatus_commit user id status updateData db
  end.

(** [cancelMyLeaveRequest] up to [leave.save()]. *)
Definition cancelMyLeaveRequest_check (user : AuthUser) (id : ObjectId)
    (db : Db) : Response + Leave.t :=
  match Student.findOne (user_id user) (user_institutionId user) (students db) with
  | None => inl (failure 404 "Student profile not found")
  | Some student =>
      match Leave.findOne id (user_institutionId user) (leaves db) with
      | None => inl (failure 404 "Leave request not found")
      | Some leave =>
          match Student.findById (Leave.studentId leave) (students db) with
          | None =>   (* [leave.studentId] is null: reading its [_id] throws *)
              inl (failure 500 "Server error while cancelling leave request")
          | Some owner =>
              if negb (Nat.eqb (Student._id owner) (Student._id student))
              then inl (failure 403 "Not authorized to cancel this leave request")
              else if negb (includes ["Pending"; "PendingParent"] (Leave.status leave))
              then inl (failure 400
                "Only pending requests (before parent/warden approval) can be cancelled")
              else inr (Leave.set_status "Cancelled" leave)
          end
      end
  end.

Definition cancelMyLeaveRequest_commit (id : ObjectId) (leave : Leave.t)
    (db : Db) : Response * Db :=
  match Leave.save id leave (leaves db) with
  | None => (failure 500 "Server error while cancelling leave request", db)
  | Some ls =>
      (mkRes 200 true (Some "Leave request cancelled successfully")
         (OneLeave id leave), withLeaves db ls)
  end.

Definition cancelMyLeaveRequest (user : AuthUser) (id : ObjectId) (db : Db)
  : Response * Db :=
  match cancelMyLeaveRequest_check user id db with
  | inl res => (res, db)
  | inr leave => cancelMyLeaveRequest_commit id leave db
  end.

(** ** Deleting a student (student controller)

    The two handlers of the student controller that remove a student.
    [deleteStudentEverywhere] also empties the fee, payment, complaint,
    entry and exit, chat and location collections of the student's
    documents; those collections are not part of this database. *)

Definition deleteStudent (user : AuthUser) (id : ObjectId) (db : Db)
  : Response * Db :=
  match Student.findOneById id (user_institutionId user) (students db) with
  | None => (failure 404 "Student not found", db)
  | Some student =>
      let users' := User.findByIdAndDelete (Student.userId student) (users db) in
      let students' := Student.findByIdAndDelete id (students db) in
      (mkRes 200 true (Some "Student account deleted successfully") NoPayload,
       mkDb users' students' (parents db) (leaves db))
  end.

Definition deleteStudentEverywhere (user : AuthUser) (id : ObjectId) (db : Db)
  : Response * Db :=
  let inst := user_institutionId user in
  match Student.findOneById id inst (students db) with
  | None => (failure 404 "Student not found", db)
  | Some student =>
      let parentRecords := Parent.find (Student._id student) inst (parents db) in
      let parentUserIds := map Parent.userId parentRecords in
      let parents' := Parent.deleteMany (Student._id student) inst (parents db) in
      let leaves' := Leave.deleteMany (Student._id student) inst (leaves db) in
      let users1 :=
        if Nat.ltb 0 (length parentUserIds)
        then User.deleteMany parentUserIds (users db) else users db in
      let users2 := User.findByIdAndDelete (Student.userId student) users1 in
      let students' :=
        Student.findByIdAndDelete (Student._id student) (students db) in
      (mkRes 200 true (Some "Student and related data deleted successfully")
         NoPayload,
       mkDb users2 students' parents' leaves')
  end.

(** ** The repair script (finalFixOutingData.js)

    The script works on the raw documents of the leaves collection, whose
    [institutionId] may be null or absent ([None]): it counts them, sets
    the given institution on them with one [updateMany], counts again and,
    when no record is left without institution, tallies the records by
    status. *)

Module RawLeave.
Record t := mk {
  institutionId : option ObjectId;
  studentId : ObjectId;
  status : string;   (* as the property name [byStatus[l.status]] reads it *)
  reason : string
}.

(** The filter [{ $or: [{ institutionId: null },
    { institutionId: { $exists: false } }] }]. *)
Definition withoutInstitution (l : t) : bool :=
  match institutionId l with
  | None => true
  | Some _ => false
  end.

(** The filter [{ institutionId: { $ne: null, $exists: true } }]. *)
Definition withInstitution (l : t) : bool :=
  match institutionId l with
  | None => false
  | Some _ => true
  end.

(** [find(filter).toArray()] on the raw collection. *)
Definition find (P : t -> bool) (coll : gmap ObjectId t) : list t :=
  List.filter P (map_to_list coll).*2.

(** [countDocuments(filter)]. *)
Definition countDocuments (P : t -> bool) (coll : gmap ObjectId t) : nat :=
  length (find P coll).

(** [{ $set: { institutionId } }] on one document. *)
Definition setInstitution (inst : ObjectId) (l : t) : t :=
  mk (Some inst) (studentId l) (status l) (reason l).

(** [updateMany(filter, { $set: { institutionId } })] with the filter
    [withoutInstitution]: the collection afterwards and [modifiedCount]. *)
Definition updateMany (inst : ObjectId) (coll : gmap ObjectId t)
  : gmap ObjectId t * nat :=
  ((fun l => if withoutInstitution l then setInstitution inst l else l) <$> coll,
   countDocuments withoutInstitution coll).
End RawLeave.

(** [byStatus] is a plain object: a name it does not have of its own is
    looked up on [Object.prototype], where these names are found.  Reading
    one of them on [{}] gives a function (for [__proto__] the prototype
    itself), not [undefined]. *)
Definition inheritedKeys : list string :=
  ["constructor"; "__proto__"; "hasOwnProperty"; "isPrototypeOf";
   "propertyIsEnumerable"; "toLocaleString"; "toString"; "valueOf";
   "__defineGetter__"; "__defineSetter__"; "__lookupGetter__";
   "__lookupSetter__"].

(** A property of [byStatus]: a count, or the text that [+ 1] makes of a
    function, of an object or of such a text (string concatenation). *)
Inductive TallyValue :=
| Count (n : nat)
| Text.

(** [byStatus[l.status] = (byStatus[l.status] || 0) + 1] on the own
    properties of [byStatus].  A count becomes the next count and a text
    a longer text.  A name [byStatus] has not of its own reads as
    [undefined], hence 1, unless it is inherited: then the value read is
    truthy and no number, and the sum is a text; assigning it makes an own
    property, except for [__proto__], whose setter ignores a string. *)
Definition tallyStep (byStatus : gmap string TallyValue) (l : RawLeave.t)
  : gmap string TallyValue :=
  let key := RawLeave.status l in
  match byStatus !! key with
  | Some (Count n) => <[key := Count (n + 1)]> byStatus
  | Some Text => <[key := Text]> byStatus
  | None =>
      if includes inheritedKeys key
      then if String.eqb key "__proto__" then byStatus
           else <[key := Text]> byStatus
      else <[key := Count 1]> byStatus
  end.

(** [leaves.forEach(l => { byStatus[l.status] = ... })] from [{}]. *)
Definition tallyByStatus (ls : list RawLeave.t) : gmap string TallyValue :=
  foldl tallyStep ∅ ls.

(** What the script prints: the records found without institution, the
    [modifiedCount] of the update, the total and the number of records
    with an institution afterwards, and the tally by status, printed only
    when the last two agree. *)
Record FixReport := mkReport {
  found : nat;
  modifiedCount : nat;
  total : nat;
  finalCheck : nat;
  byStatus : option (gmap string TallyValue)
}.

Definition finalFix (institutionId : ObjectId)
    (coll : gmap ObjectId RawLeave.t) : FixReport * gmap ObjectId RawLeave.t :=
  let nullRecords := RawLeave.find RawLeave.withoutInstitution coll in
  let '(coll', modified) := RawLeave.updateMany institutionId coll in
  let finalCheck := RawLeave.countDocuments RawLeave.withInstitution coll' in
  let total := RawLeave.countDocuments (fun _ => true) coll' in
  (mkReport (length nullRecords) modified total finalCheck
     (if Nat.eqb finalCheck total
      then Some (tallyByStatus (RawLeave.find (fun _ => true) coll'))
      else None),
   coll').

(** ** The state machine *)

Inductive Event :=
| ParentDecide (decision : string)
| WardenDecide (decision : string)
| Cancel.

(** The transition table of the specification, as it is written there:
    source status, event, target status. *)
Inductive transition : string -> Event -> string -> Prop :=
| parent_approves :
    transition "PendingParent" (ParentDecide "Approved") "ApprovedByParent"
| parent_rejects :
    transition "PendingParent" (ParentDecide "Rejected") "RejectedByParent"
| warden_approves :
    transition "ApprovedByParent" (WardenDecide "Approved") "Approved"
| warden_rejects :
    transition "ApprovedByParent" (WardenDecide "Rejected") "Rejected"
| owner_cancels :
    transition "PendingParent" Cancel "Cancelled".

(** The edges the handlers take: those of the table, and the cancellation
    of a leave still in the legacy status [Pending]. *)
Inductive handled : string -> Event -> string -> Prop :=
| handled_table s e t : transition s e t -> handled s e t
| handled_legacy : handled "Pending" Cancel "Cancelled".

(** The handler of each event. *)
Definition handle (now : Z) (user : AuthUser) (id : ObjectId) (e : Event)
    (reason : option string) (db : Db) : Response * Db :=
  match e with
  | ParentDecide decision => parentApproveOrReject now user id decision reason db
  | WardenDecide decision => updateLeaveStatus now user id decision reason db
  | Cancel => cancelMyLeaveRequest user id db
  end.

(** The actor the table requires for an event on leave [l]: the guardian
    linked to its student, a caller of its institution, its owner. *)
Definition actorAllowed (user : AuthUser) (e : Event) (db : Db) (l : Leave.t)
  : Prop :=
  Leave.institutionId l = user_institutionId user /\
  match e with
  | ParentDecide _ =>
      is_Some (Student.findById (Leave.studentId l) (students db)) /\
      exists parent,
        Parent.findOne (user_id user) (user_institutionId user) (parents db)
          = Some parent /\
        Parent.studentId parent = Leave.studentId l
  | WardenDecide _ => True
  | Cancel =>
      exists student,
        Student.findOne (user_id user) (user_institutionId user) (students db)
          = Some student /\
        Student._id student = Leave.studentId l
  end.

(** Every request the controller serves. *)
Inductive Request :=
| CreateLeave (now : Z) (user : AuthUser) (body : CreateBody)
| GetAllLeaves (user : AuthUser) (status : option string)
| GetMyLeaves (user : AuthUser)
| Decide (now : Z) (user : AuthUser) (id : ObjectId) (e : Event)
    (reason : option string).

Definition serve (r : Request) (db : Db) : Response * Db :=
  match r with
  | CreateLeave now user body => createLeaveRequest now user body db
  | GetAllLeaves user status => getAllLeaveRequests user status db
  | GetMyLeaves user => getMyLeaveRequests user db
  | Decide now user id e reason => handle now user id e reason db
  end.

(** The database after a sequence of requests served one after another. *)
Definition run (rs : list Request) (db : Db) : Db :=
  fold_left (fun d r => (serve r d).2) rs db.



(** ** Sample data *)

Definition sampleUsers : list User.t :=
  [User.mk 10 "Asha"; User.mk 11 "Ravi"; User.mk 12 "Meera"; User.mk 13 "Bina";
   User.mk 14 "Kiran"].

Definition sampleStudents : list Student.t :=
  [Student.mk 20 10 1 (Some "A-101") (Some "R7"); Student.mk 21 13 1 None None].

Definition sampleParents : list Parent.t :=
  [Parent.mk 30 11 1 20; Parent.mk 31 14 1 21].

Definition sampleLeave (status : string) (history : list HistoryEntry.t)
  : Leave.t :=
  Leave.mk 1 20 "Home visit" "Personal" (Some 1000%Z) (Some 2000%Z) None None
    status "Pending" None None None None None None history 50%Z.

Definition created : HistoryEntry.t :=
  HistoryEntry.mk "PendingParent" None "student" None 50%Z.

Definition sampleDb (status : string) (history : list HistoryEntry.t) : Db :=
  mkDb sampleUsers sampleStudents sampleParents
    {[ 40 := sampleLeave status history ]}.

Definition parentApproved : HistoryEntry.t :=
  HistoryEntry.mk "ApprovedByParent" (Some 11) "parent" None 60%Z.

Definition asha : AuthUser := mkUser 10 1.    (* student 20, owner of leave 40 *)
Definition ravi : AuthUser := mkUser 11 1.    (* guardian of student 20 *)
Definition meera : AuthUser := mkUser 12 1.   (* warden of institution 1 *)
Definition bina : AuthUser := mkUser 13 1.    (* student 21 *)
Definition kiran : AuthUser := mkUser 14 1.   (* guardian of student 21 *)
Definition omar : AuthUser := mkUser 15 2.    (* warden of institution 2 *)

Definition emptyDb : Db := mkDb sampleUsers sampleStudents sampleParents ∅.

Definition sampleBody : CreateBody :=
  mkCreateBody (Some " Home visit ") (Some "Personal")
    (Some (Some 1000%Z)) (Some (Some 2000%Z)) None None.

(** The string of the given bytes. *)
Definition ofBytes (bs : list nat) : string :=
  foldr (fun b s => String (Ascii.ascii_of_nat b) s) EmptyString bs.

(** U+00A0, U+2003, U+2028 and U+FEFF, white space for [trim], and U+2014,
    a dash, in UTF-8. *)
Definition noBreakSpace : string := ofBytes [194; 160].
Definition emSpace : string := ofBytes [226; 128; 131].
Definition lineSeparator : string := ofBytes [226; 128; 168].
Definition byteOrderMark : string := ofBytes [239; 187; 191].
Definition emDash : string := ofBytes [226; 128; 148].

(** The sample body with its reason between white space of more than one
    byte. *)
Definition unicodeBody : CreateBody :=
  mkCreateBody
    (Some (noBreakSpace +:+ byteOrderMark +:+ " Home visit" +:+ emSpace
           +:+ lineSeparator))
    (Some "Personal") (Some (Some 1000%Z)) (Some (Some 2000%Z)) None None.



(** ** Notions used by the statements *)

(** The document [parentApproveOrReject] saves for a decision on [leave]. *)
Definition parentDecided (now : Z) (user : AuthUser) (status : string)
    (rejectionReason : option string) (leave : Leave.t) : Leave.t :=
  let newStatus :=
    if String.eqb status "Approved" then "ApprovedByParent" else "RejectedByParent" in
  Leave.mk (Leave.institutionId leave) (Leave.studentId leave)
    (Leave.reason leave) (Leave.type leave) (Leave.outDate leave)
    (Leave.inDate leave) (Leave.outTime leave) (Leave.inTime leave)
    newStatus status (Some (user_id user)) (Some now)
    (if String.eqb status "Rejected" then rejectionReason
     else Leave.parentRejectionReason leave)
    (Leave.approvedBy leave) (Leave.approvedAt leave)
    (Leave.rejectionReason leave)
    (Leave.statusHistory leave ++
       [HistoryEntry.mk newStatus (Some (user_id user)) "parent"
          (if String.eqb status "Rejected" then rejectionReason else None) now])
    (Leave.createdAt leave).

(** The update document [updateLeaveStatus] builds for a decision on
    [leave]. *)
Definition wardenUpdate (now : Z) (user : AuthUser) (status : string)
    (rejectionReason : option string) (leave : Leave.t) : UpdateData.t :=
  UpdateData.mk status (user_id user)
    (Leave.statusHistory leave ++
       [HistoryEntry.mk status (Some (user_id user)) "warden"
          (if String.eqb status "Rejected" then rejectionReason else None) now])
    (if String.eqb status "Approved" then Some now else None)
    (if String.eqb status "Approved" then None
     else if String.eqb status "Rejected" then rejectionReason else None).

(** The first history entry, which records the creation. *)
Definition creationEntry (now : Z) : HistoryEntry.t :=
  HistoryEntry.mk "PendingParent" None "student" None now.



(** The input of [createLeaveRequest] that its two guards refuse. *)
Definition missing (v : option string) : Prop := v = None \/ v = Some "".

Definition refusedBody (body : CreateBody) : Prop :=
  missing (body_reason body) \/ missing (body_type body) \/
  body_outDate body = None \/ body_inDate body = None \/
  exists out_ in_,
    body_outDate body = Some (Some out_) /\
    body_inDate body = Some (Some in_) /\ (in_ <= out_)%Z.

(** The caller of a request, and the leaves its answer shows. *)
Definition requester (r : Request) : AuthUser :=
  match r with
  | CreateLeave _ user _ => user
  | GetAllLeaves user _ => user
  | GetMyLeaves user => user
  | Decide _ user _ _ _ => user
  end.

Definition disclosed (res : Response) : list (ObjectId * Leave.t) :=
  match payload res with
  | NoPayload => []
  | OneLeave id l => [(id, l)]
  | ManyLeaves ls => ls
  end.

(** The caller's own profile resolves and the decision value is one of
    the two: the request gets as far as loading the leave. *)
Definition reachesLoad (user : AuthUser) (e : Event) (db : Db) : Prop :=
  match e with
  | ParentDecide decision =>
      (decision = "Approved" \/ decision = "Rejected") /\
      is_Some (Parent.findOne (user_id user) (user_institutionId user) (parents db))
  | WardenDecide decision => decision = "Approved" \/ decision = "Rejected"
  | Cancel => True
  end.


Definition raceLeave : Leave.t :=
  sampleLeave "ApprovedByParent" [created; parentApproved].


(** Requests on the sample leave: every event once, and the guardian's
    approval followed by the warden's rejection. *)
Definition everyEvent : list Request :=
  [Decide 80 asha 40 Cancel None;
   Decide 81 ravi 40 (ParentDecide "Approved") None;
   Decide 82 meera 40 (WardenDecide "Approved") None].

Definition twoDecisions : list Request :=
  [Decide 60 ravi 40 (ParentDecide "Approved") None;
   Decide 70 meera 40 (WardenDecide "Rejected") (Some "Exams")].

(** The document [createLeaveRequest] hands to [Leave.create] for a body
    that has passed its two guards. *)
Definition newLeave (now : Z) (user : AuthUser) (student : Student.t)
    (body : CreateBody) : Leave.t :=
  Leave.mk (user_institutionId user) (Student._id student)
    (trim (default "" (body_reason body))) (default "" (body_type body))
    (default None (body_outDate body)) (default None (body_inDate body))
    (body_outTime body) (body_inTime body)
    "PendingParent" "Pending" None None None None None None
    [creationEntry now] now.

(** The sample database without its user accounts. *)
Definition noUsersDb (status : string) (history : list HistoryEntry.t) : Db :=
  mkDb [] sampleStudents sampleParents {[ 40 := sampleLeave status history ]}.

(** The requests of the leave controller and the deletion of a student
    with all related data, served in any order. *)
Inductive Operation :=
| OnLeaves (r : Request)
| DeleteEverywhere (user : AuthUser) (id : ObjectId).

Definition perform (o : Operation) (db : Db) : Response * Db :=
  match o with
  | OnLeaves r => serve r db
  | DeleteEverywhere user id => deleteStudentEverywhere user id db
  end.

Definition performAll (os : list Operation) (db : Db) : Db :=
  fold_left (fun d o => (perform o d).2) os db.

(** Every leave has its student, in its own institution. *)
Definition leavesHaveStudents (db : Db) : Prop :=
  forall id l,
    leaves db !! id = Some l ->
    exists st,
      Student.findById (Leave.studentId l) (students db) = Some st /\
      Student.institutionId st = Leave.institutionId l.

(** Student ids are unique, as [_id]s are. *)
Definition uniqueStudentIds (db : Db) : Prop :=
  NoDup (Student._id <$> students db).

(** The number of records with status [s]. *)
Definition countStatus (s : string) (ls : list RawLeave.t) : nat :=
  length (List.filter (fun l => String.eqb (RawLeave.status l) s) ls).

Definition sampleRawLeaves : gmap ObjectId RawLeave.t :=
  {[ 1 := RawLeave.mk None 20 "Approved" "Home visit";
     2 := RawLeave.mk (Some 7) 21 "Approved" "Wedding";
     3 := RawLeave.mk None 20 "PendingParent" "Dentist" ]}.

(** A status from which some handler still moves a leave. *)
Definition openStatus (s : string) : Prop :=
  s = "Pending" \/ s = "PendingParent" \/ s = "ApprovedByParent".

(** The fields of a leave that make up the request itself. *)
Definition sameRequest (l l' : Leave.t) : Prop :=
  Leave.institutionId l' = Leave.institutionId l /\
  Leave.studentId l' = Leave.studentId l /\
  Leave.reason l' = Leave.reason l /\
  Leave.type l' = Leave.type l /\
  Leave.outDate l' = Leave.outDate l /\
  Leave.inDate l' = Leave.inDate l /\
  Leave.outTime l' = Leave.outTime l /\
  Leave.inTime l' = Leave.inTime l /\
  Leave.createdAt l' = Leave.createdAt l.

(** ** Basic facts *)

Lemma includes_decision (status : string) :
  includes ["Approved"; "Rejected"] status = true <->
  status = "Approved" \/ status = "Rejected".
Proof.
  unfold includes; simpl.
  rewrite !orb_true_iff, !String.eqb_eq. intuition discriminate.
Qed.

Lemma includes_pending (status : string) :
  includes ["Pending"; "PendingParent"] status = true <->
  status = "Pending" \/ status = "PendingParent".
Proof.
  unfold includes; simpl.
  rewrite !orb_true_iff, !String.eqb_eq. intuition discriminate.
Qed.

Lemma findOne_Some (id inst : ObjectId) (coll : gmap ObjectId Leave.t) (l : Leave.t) :
  Leave.findOne id inst coll = Some l <->
  coll !! id = Some l /\ Leave.institutionId l = inst.
Proof.
  unfold Leave.findOne. destruct (coll !! id) as [l0|] eqn:E.
  - destruct (Nat.eqb_spec (Leave.institutionId l0) inst); split.
    + intros [= <-]. done.
    + intros [[= <-] _]. done.
    + discriminate.
    + intros [[= <-] ?]. done.
  - split; [discriminate | intros [? _]; discriminate].
Qed.

Lemma findOne_None (id inst : ObjectId) (coll : gmap ObjectId Leave.t) (l : Leave.t) :
  coll !! id = Some l -> Leave.institutionId l <> inst ->
  Leave.findOne id inst coll = None.
Proof.
  intros E Hne. unfold Leave.findOne. rewrite E.
  destruct (Nat.eqb_spec (Leave.institutionId l) inst); congruence.
Qed.

Lemma student_findById_id (id : ObjectId) (coll : list Student.t) (s : Student.t) :
  Student.findById id coll = Some s -> Student._id s = id.
Proof.
  unfold Student.findById. intros H. apply find_some in H as [_ H].
  by apply Nat.eqb_eq.
Qed.

Lemma student_findOne_findById (uid inst : ObjectId) (coll : list Student.t)
    (s : Student.t) :
  Student.findOne uid inst coll = Some s ->
  is_Some (Student.findById (Student._id s) coll).
Proof.
  unfold Student.findOne, Student.findById. intros H.
  apply find_some in H as [Hin _].
  destruct (find _ coll) eqn:E; [eauto|].
  eapply find_none in E; [|exact Hin]. by rewrite Nat.eqb_refl in E.
Qed.

(** ** What each check lets through *)

Ltac case_guards :=
  repeat match goal with
  | H : context [match ?x with _ => _ end] |- _ =>
      lazymatch type of x with
      | bool => destruct x eqn:?
      | option _ => destruct x eqn:?
      end
  | H : inl _ = inr _ |- _ => discriminate H
  | H : inr _ = inl _ |- _ => discriminate H
  | H : negb _ = false |- _ => apply negb_false_iff in H
  | H : negb _ = true |- _ => apply negb_true_iff in H
  end.

Ltac clean_eqb :=
  repeat match goal with
  | H : String.eqb _ _ = true |- _ => apply String.eqb_eq in H
  | H : String.eqb _ _ = false |- _ => apply String.eqb_neq in H
  | H : Nat.eqb _ _ = true |- _ => apply Nat.eqb_eq in H
  | H : Nat.eqb _ _ = false |- _ => apply Nat.eqb_neq in H
  | H : includes ["Approved"; "Rejected"] _ = true |- _ =>
      apply includes_decision in H
  | H : includes ["Pending"; "PendingParent"] _ = true |- _ =>
      apply includes_pending in H
  | H : Leave.findOne _ _ _ = Some _ |- _ => apply findOne_Some in H as [? ?]
  end.

Ltac rewrite_guards :=
  repeat match goal with
  | H : ?b = true |- context [?b] => rewrite H
  | H : ?b = false |- context [?b] => rewrite H
  end.

Lemma parent_check_inr now user id status rejectionReason db leave' :
  parentApproveOrReject_check now user id status rejectionReason db = inr leave' ->
  exists parent leave,
    (status = "Approved" \/ status = "Rejected") /\
    Parent.findOne (user_id user) (user_institutionId user) (parents db)
      = Some parent /\
    leaves db !! id = Some leave /\
    Leave.institutionId leave = user_institutionId user /\
    is_Some (Student.findById (Leave.studentId leave) (students db)) /\
    Parent.studentId parent = Leave.studentId leave /\
    Leave.status leave = "PendingParent" /\
    leave' = parentDecided now user status rejectionReason leave.
Proof.
  unfold parentApproveOrReject_check. intros H. case_guards.
  all: injection H as <-.
  all: match goal with H : Student.findById _ _ = Some _ |- _ =>
    pose proof (student_findById_id _ _ _ H) end.
  all: clean_eqb; try (exfalso; intuition congruence); subst status.
  all: eexists _, _; repeat split; eauto; congruence.
Qed.

Lemma parent_commit_found id status leave' db l :
  leaves db !! id = Some l ->
  parentApproveOrReject_commit id status leave' db =
    (mkRes 200 true
       (Some ("Leave request " +:+ toLowerCase status +:+ " by parent"))
       (OneLeave id leave'),
     withLeaves db (<[id := leave']> (leaves db))).
Proof.
  intros E. unfold parentApproveOrReject_commit, Leave.save, Leave.findById.
  rewrite E. by rewrite lookup_insert_eq.
Qed.

Lemma warden_check_inr now user id status rejectionReason db u :
  updateLeaveStatus_check now user id status rejectionReason db = inr u ->
  exists leave,
    (status = "Approved" \/ status = "Rejected") /\
    leaves db !! id = Some leave /\
    Leave.institutionId leave = user_institutionId user /\
    Leave.status leave = "ApprovedByParent" /\
    u = wardenUpdate now user status rejectionReason leave.
Proof.
  unfold updateLeaveStatus_check. intros H. case_guards.
  all: injection H as <-.
  all: clean_eqb; try (exfalso; intuition congruence); subst status.
  all: eexists; repeat split; eauto.
Qed.

Lemma warden_commit_found user id status u db l :
  leaves db !! id = Some l ->
  Leave.institutionId l = user_institutionId user ->
  let l' := Leave.applyUpdate u l in
  let db' := withLeaves db (<[id := l']> (leaves db)) in
  updateLeaveStatus_commit user id status u db =
    (match populatedStudentName db' l' with
     | None => failure 500 "Server error while updating leave request"
     | Some _ =>
         mkRes 200 true
           (Some ("Leave request " +:+ toLowerCase status +:+ " successfully"))
           (OneLeave id l')
     end, db').
Proof.
  intros E Hi. unfold updateLeaveStatus_commit, Leave.findOneAndUpdate.
  assert (Leave.findOne id (user_institutionId user) (leaves db) = Some l) as ->
    by by apply findOne_Some.
  simpl. by destruct (populatedStudentName _ _).
Qed.

Lemma cancel_check_inr user id db leave' :
  cancelMyLeaveRequest_check user id db = inr leave' ->
  exists student leave,
    Student.findOne (user_id user) (user_institutionId user) (students db)
      = Some student /\
    leaves db !! id = Some leave /\
    Leave.institutionId leave = user_institutionId user /\
    Student._id student = Leave.studentId leave /\
    (Leave.status leave = "Pending" \/ Leave.status leave = "PendingParent") /\
    leave' = Leave.set_status "Cancelled" leave.
Proof.
  unfold cancelMyLeaveRequest_check. intros H. case_guards.
  injection H as <-.
  match goal with H : Student.findById _ _ = Some _ |- _ =>
    pose proof (student_findById_id _ _ _ H) end.
  clean_eqb. eexists _, _. repeat split; eauto; congruence.
Qed.

Lemma cancel_commit_found id leave' db l :
  leaves db !! id = Some l ->
  cancelMyLeaveRequest_commit id leave' db =
    (mkRes 200 true (Some "Leave request cancelled successfully")
       (OneLeave id leave'),
     withLeaves db (<[id := leave']> (leaves db))).
Proof.
  intros E. unfold cancelMyLeaveRequest_commit, Leave.save. by rewrite E.
Qed.

(** ** The outcome of a decision or cancellation *)

Lemma parent_check_inl now user id status rejectionReason db res :
  parentApproveOrReject_check now user id status rejectionReason db = inl res ->
  exists code msg, res = failure code msg /\ code <> 200.
Proof.
  unfold parentApproveOrReject_check. intros H. case_guards.
  all: injection H as <-; eexists _, _; split; [reflexivity | lia].
Qed.

Lemma warden_check_inl now user id status rejectionReason db res :
  updateLeaveStatus_check now user id status rejectionReason db = inl res ->
  exists code msg, res = failure code msg /\ code <> 200.
Proof.
  unfold updateLeaveStatus_check. intros H. case_guards.
  all: injection H as <-; eexists _, _; split; [reflexivity | lia].
Qed.

Lemma cancel_check_inl user id db res :
  cancelMyLeaveRequest_check user id db = inl res ->
  exists code msg, res = failure code msg /\ code <> 200.
Proof.
  unfold cancelMyLeaveRequest_check. intros H. case_guards.
  all: injection H as <-; eexists _, _; split; [reflexivity | lia].
Qed.

Lemma applyUpdate_wardenUpdate now user status rejectionReason l :
  status = "Approved" \/ status = "Rejected" ->
  Leave.applyUpdate (wardenUpdate now user status rejectionReason l) l =
  Leave.mk (Leave.institutionId l) (Leave.studentId l) (Leave.reason l)
    (Leave.type l) (Leave.outDate l) (Leave.inDate l) (Leave.outTime l)
    (Leave.inTime l) status (Leave.parentApprovalStatus l)
    (Leave.parentApprovedBy l) (Leave.parentApprovedAt l)
    (Leave.parentRejectionReason l) (Some (user_id user))
    (if String.eqb status "Approved" then Some now else Leave.approvedAt l)
    (if String.eqb status "Approved" then Leave.rejectionReason l
     else match rejectionReason with
          | Some r => Some r
          | None => Leave.rejectionReason l
          end)
    (Leave.statusHistory l ++
       [HistoryEntry.mk status (Some (user_id user)) "warden"
          (if String.eqb status "Rejected" then rejectionReason else None) now])
    (Leave.createdAt l).
Proof.
  intros [-> | ->]; unfold Leave.applyUpdate, wardenUpdate; simpl;
    [|destruct rejectionReason]; reflexivity.
Qed.

(** A request either writes nothing and answers a failure, or it was
    made by the actor the event requires and writes, under the same key,
    a document whose status is reached by an edge the handlers take; the
    history is then left as it was or gets one entry, which records the
    new status. *)
Lemma handle_outcome now user id e reason db :
  let r := handle now user id e reason db in
  (r.2 = db /\ exists code msg, r.1 = failure code msg /\ code <> 200) \/
  (exists l l',
     leaves db !! id = Some l /\
     actorAllowed user e db l /\
     r.2 = withLeaves db (<[id := l']> (leaves db)) /\
     handled (Leave.status l) e (Leave.status l') /\
     Leave.institutionId l' = Leave.institutionId l /\
     Leave.studentId l' = Leave.studentId l /\
     (Leave.statusHistory l' = Leave.statusHistory l /\ e = Cancel \/
      exists h, Leave.statusHistory l' = Leave.statusHistory l ++ [h] /\
                HistoryEntry.status h = Leave.status l' /\
                transition (Leave.status l) e (Leave.status l')) /\
     (r.1 = mkRes 200 true (message r.1) (OneLeave id l') \/
      exists msg, r.1 = failure 500 msg)).
Proof.
  destruct e as [status | status |]; simpl.
  - unfold parentApproveOrReject.
    destruct (parentApproveOrReject_check _ _ _ _ _ _) as [res | leave'] eqn:E.
    { left. split; [done|]. by eapply parent_check_inl. }
    right. apply parent_check_inr in E
      as (parent & l & Hs & Hp & Hl & Hi & Hst & Hlink & Hpend & ->).
    rewrite (parent_commit_found _ _ _ _ _ Hl).
    assert (transition (Leave.status l) (ParentDecide status)
              (Leave.status (parentDecided now user status reason l))) as Ht
      by (rewrite Hpend; destruct Hs as [-> | ->]; simpl; constructor).
    exists l, (parentDecided now user status reason l).
    split; [done|]. split; [split; [done|]; split; [done|]; eauto|].
    split; [done|]. split; [by apply handled_table|].
    split; [done|]. split; [done|]. split; [|by left].
    right. eexists. split; [reflexivity|]. split; [reflexivity | exact Ht].
  - unfold updateLeaveStatus.
    destruct (updateLeaveStatus_check _ _ _ _ _ _) as [res | u] eqn:E.
    { left. split; [done|]. by eapply warden_check_inl. }
    right. apply warden_check_inr in E as (l & Hs & Hl & Hi & Hap & ->).
    rewrite (warden_commit_found user id status
               (wardenUpdate now user status reason l) db l Hl Hi).
    set (l' := Leave.applyUpdate (wardenUpdate now user status reason l) l).
    pose proof (applyUpdate_wardenUpdate now user status reason l Hs) as El'.
    fold l' in El'.
    assert (transition (Leave.status l) (WardenDecide status) (Leave.status l'))
      as Ht by (rewrite El', Hap; destruct Hs as [-> | ->]; simpl; constructor).
    exists l, l'.
    split; [done|]. split; [by split|]. split; [done|].
    split; [by apply handled_table|].
    split; [by rewrite El'|]. split; [by rewrite El'|]. split.
    + right. eexists. split; [by rewrite El'|]. split; [by rewrite El' | exact Ht].
    + simpl. destruct (populatedStudentName _ _); simpl; eauto.
  - unfold cancelMyLeaveRequest.
    destruct (cancelMyLeaveRequest_check _ _ _) as [res | leave'] eqn:E.
    { left. split; [done|]. by eapply cancel_check_inl. }
    right. apply cancel_check_inr in E
      as (student & l & Hst & Hl & Hi & Hown & Hpend & ->).
    rewrite (cancel_commit_found _ _ _ _ Hl).
    exists l, (Leave.set_status "Cancelled" l).
    split; [done|]. split; [split; [done|]; eauto|]. split; [done|].
    split.
    { simpl. destruct Hpend as [-> | ->];
        [apply handled_legacy | apply handled_table; constructor]. }
    split; [done|]. split; [done|]. split; [by left | by left].
Qed.



(** ** Creation and the history of a leave *)

Lemma create_outcome now user body db :
  let r := createLeaveRequest now user body db in
  (r.2 = db /\ exists code msg, r.1 = failure code msg /\ code <> 201) \/
  (exists id l,
     leaves db !! id = None /\
     r.2 = withLeaves db (<[id := l]> (leaves db)) /\
     Leave.institutionId l = user_institutionId user /\
     Leave.status l = "PendingParent" /\
     Leave.statusHistory l = [creationEntry now] /\
     (r.1 = mkRes 201 true (message r.1) (OneLeave id l) \/
      exists msg, r.1 = failure 500 msg)).
Proof.
  unfold createLeaveRequest.
  destruct (_ || _) eqn:Hreq; [left; split; [done|]; eexists _, _; split; [done|lia]|].
  destruct (date_ge _ _); [left; split; [done|]; eexists _, _; split; [done|lia]|].
  destruct (Student.findOne _ _ _) as [student|];
    [|left; split; [done|]; eexists _, _; split; [done|lia]].
  unfold Leave.create.
  destruct (Leave.schemaValid _);
    [|left; split; [done|]; eexists _, _; split; [done|lia]].
  right. eexists _, _. split.
  { apply not_elem_of_dom, is_fresh. }
  destruct (populatedStudentName _ _); simpl; repeat split; eauto.
Qed.







(** ** The claims *)




(** C2: the cancellation of a pending leave is accepted and sets the
    status to Cancelled, and the status history is left as it was: no
    entry is appended for this transition. *)
Lemma cancellation_appends_no_history_entry :
  let db := sampleDb "PendingParent" [created] in
  let r := cancelMyLeaveRequest asha 40 db in
  statusCode r.1 = 200 /\
  Leave.status <$> leaves r.2 !! 40 = Some "Cancelled" /\
  Leave.statusHistory <$> leaves r.2 !! 40 = Some [created].
Proof. repeat split; vm_compute; reflexivity. Qed.

Lemma accepted_parent_decision now user id status reason db l :
  leaves db !! id = Some l ->
  statusCode (parentApproveOrReject now user id status reason db).1 = 200 ->
  (parentApproveOrReject now user id status reason db).2 =
    withLeaves db (<[id := parentDecided now user status reason l]> (leaves db)).
Proof.
  intros Hl. unfold parentApproveOrReject.
  destruct (parentApproveOrReject_check _ _ _ _ _ _) as [res | leave'] eqn:E.
  - apply parent_check_inl in E as (code & msg & -> & Hc). simpl. congruence.
  - apply parent_check_inr in E as (_ & l0 & _ & _ & Hl0 & _ & _ & _ & _ & ->).
    rewrite (parent_commit_found _ _ _ _ _ Hl0). simpl. congruence.
Qed.

Lemma accepted_warden_decision now user id status reason db l :
  leaves db !! id = Some l ->
  statusCode (updateLeaveStatus now user id status reason db).1 = 200 ->
  (updateLeaveStatus now user id status reason db).2 =
    withLeaves db
      (<[id := Leave.applyUpdate (wardenUpdate now user status reason l) l]>
         (leaves db)).
Proof.
  intros Hl. unfold updateLeaveStatus.
  destruct (updateLeaveStatus_check _ _ _ _ _ _) as [res | u] eqn:E.
  - apply warden_check_inl in E as (code & msg & -> & Hc). simpl. congruence.
  - apply warden_check_inr in E as (l0 & _ & Hl0 & Hi & _ & ->).
    rewrite (warden_commit_found _ _ _ _ _ _ Hl0 Hi). simpl. congruence.
Qed.

(** C3, as amended.  An accepted guardian rejection sets the status to
    RejectedByParent, parentApprovalStatus to Rejected, parentApprovedBy
    to the caller, parentApprovedAt to the time of the decision and
    parentRejectionReason to the reason given, and appends one history
    entry.  An accepted warden rejection sets the status to Rejected,
    approvedBy to the caller and, when a reason is given, rejectionReason
    to it, and appends one history entry.  Every other field of the leave
    (approvedAt among them) and every other document is as before. *)
Theorem rejection_changes_named_fields_only now user id reason db l :
  leaves db !! id = Some l ->
  (statusCode (parentApproveOrReject now user id "Rejected" reason db).1 = 200 ->
   (parentApproveOrReject now user id "Rejected" reason db).2 =
     withLeaves db
       (<[id :=
            Leave.mk (Leave.institutionId l) (Leave.studentId l)
              (Leave.reason l) (Leave.type l) (Leave.outDate l)
              (Leave.inDate l) (Leave.outTime l) (Leave.inTime l)
              "RejectedByParent" "Rejected" (Some (user_id user)) (Some now)
              reason
              (Leave.approvedBy l) (Leave.approvedAt l)
              (Leave.rejectionReason l)
              (Leave.statusHistory l ++
                 [HistoryEntry.mk "RejectedByParent" (Some (user_id user))
                    "parent" reason now])
              (Leave.createdAt l)]> (leaves db))) /\
  (statusCode (updateLeaveStatus now user id "Rejected" reason db).1 = 200 ->
   (updateLeaveStatus now user id "Rejected" reason db).2 =
     withLeaves db
       (<[id :=
            Leave.mk (Leave.institutionId l) (Leave.studentId l)
              (Leave.reason l) (Leave.type l) (Leave.outDate l)
              (Leave.inDate l) (Leave.outTime l) (Leave.inTime l)
              "Rejected" (Leave.parentApprovalStatus l)
              (Leave.parentApprovedBy l) (Leave.parentApprovedAt l)
              (Leave.parentRejectionReason l)
              (Some (user_id user)) (Leave.approvedAt l)
              (match reason with
               | Some r => Some r
               | None => Leave.rejectionReason l
               end)
              (Leave.statusHistory l ++
                 [HistoryEntry.mk "Rejected" (Some (user_id user))
                    "warden" reason now])
              (Leave.createdAt l)]> (leaves db))).
Proof.
  intros Hl. split; intros Hok.
  - by rewrite (accepted_parent_decision _ _ _ _ _ _ _ Hl Hok).
  - rewrite (accepted_warden_decision _ _ _ _ _ _ _ Hl Hok).
    rewrite applyUpdate_wardenUpdate by auto. reflexivity.
Qed.

(** The theorem at a guardian's rejection of a pending leave. *)
Lemma rejection_changes_named_fields_only_witness :
  leaves (sampleDb "PendingParent" [created]) !! 40
    = Some (sampleLeave "PendingParent" [created]) /\
  statusCode (parentApproveOrReject 60 ravi 40 "Rejected" (Some "Exams")
                (sampleDb "PendingParent" [created])).1 = 200 /\
  Leave.approvedBy <$>
    leaves (parentApproveOrReject 60 ravi 40 "Rejected" (Some "Exams")
              (sampleDb "PendingParent" [created])).2 !! 40 = Some None.
Proof.
  assert (leaves (sampleDb "PendingParent" [created]) !! 40
          = Some (sampleLeave "PendingParent" [created])) as H1 by reflexivity.
  assert (statusCode (parentApproveOrReject 60 ravi 40 "Rejected" (Some "Exams")
                        (sampleDb "PendingParent" [created])).1 = 200) as H2
    by (vm_compute; reflexivity).
  split; [exact H1|]. split; [exact H2|].
  rewrite (proj1 (rejection_changes_named_fields_only 60%Z ravi 40
                    (Some "Exams") _ _ H1) H2).
  simpl. rewrite lookup_insert_eq. reflexivity.
Defined.

(** C3, as stated, fails: an accepted guardian rejection sets
    parentApprovedBy and parentApprovedAt, and an accepted warden
    rejection sets approvedBy. *)
Lemma rejection_records_the_decider :
  let db1 := sampleDb "PendingParent" [created] in
  let r1 := parentApproveOrReject 60 ravi 40 "Rejected" (Some "Exams") db1 in
  let db2 := sampleDb "ApprovedByParent" [created; parentApproved] in
  let r2 := updateLeaveStatus 70 meera 40 "Rejected" (Some "Exams") db2 in
  (statusCode r1.1 = 200 /\
   Leave.parentApprovedBy <$> leaves db1 !! 40 = Some None /\
   Leave.parentApprovedBy <$> leaves r1.2 !! 40 = Some (Some 11) /\
   Leave.parentApprovedAt <$> leaves db1 !! 40 = Some None /\
   Leave.parentApprovedAt <$> leaves r1.2 !! 40 = Some (Some 60%Z)) /\
  (statusCode r2.1 = 200 /\
   Leave.approvedBy <$> leaves db2 !! 40 = Some None /\
   Leave.approvedBy <$> leaves r2.2 !! 40 = Some (Some 12)).
Proof. repeat split; vm_compute; reflexivity. Qed.

Lemma cancel_check_resolved user id db student owner l :
  Student.findOne (user_id user) (user_institutionId user) (students db)
    = Some student ->
  leaves db !! id = Some l ->
  Leave.institutionId l = user_institutionId user ->
  Student.findById (Leave.studentId l) (students db) = Some owner ->
  cancelMyLeaveRequest_check user id db =
    if negb (Nat.eqb (Leave.studentId l) (Student._id student))
    then inl (failure 403 "Not authorized to cancel this leave request")
    else if negb (includes ["Pending"; "PendingParent"] (Leave.status l))
    then inl (failure 400
      "Only pending requests (before parent/warden approval) can be cancelled")
    else inr (Leave.set_status "Cancelled" l).
Proof.
  intros Hst Hl Hi Ho. unfold cancelMyLeaveRequest_check.
  assert (Leave.findOne id (user_institutionId user) (leaves db) = Some l) as ->
    by by apply findOne_Some.
  by rewrite Hst, Ho, (student_findById_id _ _ _ Ho).
Qed.

(** C4, as amended.  For a caller with a student profile and a leave of
    the caller's institution whose student exists: a caller who is not
    the owner gets 403 and nothing changes; the owner's cancellation is
    accepted while the status is PendingParent or the legacy Pending, and
    sets the status to Cancelled; from any other status it fails with 400
    and nothing changes.  No cancellation is accepted from anyone but the
    owner. *)
Theorem cancel_by_owner_while_pending user id db student l :
  Student.findOne (user_id user) (user_institutionId user) (students db)
    = Some student ->
  leaves db !! id = Some l ->
  Leave.institutionId l = user_institutionId user ->
  is_Some (Student.findById (Leave.studentId l) (students db)) ->
  let r := cancelMyLeaveRequest user id db in
  (Student._id student <> Leave.studentId l ->
   statusCode r.1 = 403 /\ r.2 = db) /\
  (Student._id student = Leave.studentId l ->
   Leave.status l <> "Pending" -> Leave.status l <> "PendingParent" ->
   statusCode r.1 = 400 /\ r.2 = db) /\
  (Student._id student = Leave.studentId l ->
   Leave.status l = "Pending" \/ Leave.status l = "PendingParent" ->
   statusCode r.1 = 200 /\
   Leave.status <$> leaves r.2 !! id = Some "Cancelled") /\
  (statusCode r.1 = 200 -> Student._id student = Leave.studentId l).
Proof.
  intros Hst Hl Hi [owner Ho] r. subst r. unfold cancelMyLeaveRequest.
  rewrite (cancel_check_resolved _ _ _ _ _ _ Hst Hl Hi Ho).
  destruct (Nat.eqb_spec (Leave.studentId l) (Student._id student)) as [Heq | Hne];
    cbn [negb].
  - destruct (includes ["Pending"; "PendingParent"] (Leave.status l)) eqn:Hp;
      cbn [negb].
    + rewrite (cancel_commit_found _ _ _ _ Hl). simpl.
      apply includes_pending in Hp. rewrite lookup_insert_eq. simpl.
      repeat split; try done; intros; intuition congruence.
    + assert (~ (Leave.status l = "Pending" \/ Leave.status l = "PendingParent"))
        by (rewrite <- includes_pending; congruence).
      repeat split; try done; intros; try tauto; try congruence.
  - repeat split; try done; intros; congruence.
Qed.

(** The theorem at the owner's cancellation of a pending leave. *)
Lemma cancel_by_owner_while_pending_witness :
  Student.findOne 10 1 sampleStudents
    = Some (Student.mk 20 10 1 (Some "A-101") (Some "R7")) /\
  leaves (sampleDb "PendingParent" [created]) !! 40
    = Some (sampleLeave "PendingParent" [created]) /\
  is_Some (Student.findById 20 sampleStudents) /\
  statusCode (cancelMyLeaveRequest asha 40 (sampleDb "PendingParent" [created])).1
    = 200.
Proof.
  assert (is_Some (Student.findById 20 sampleStudents)) as H by (eexists; reflexivity).
  split; [reflexivity|]. split; [reflexivity|]. split; [exact H|].
  apply (cancel_by_owner_while_pending asha 40
           (sampleDb "PendingParent" [created]) _ _ eq_refl eq_refl eq_refl H).
  - reflexivity.
  - right. reflexivity.
Defined.

(** C4, as stated, fails: the owner's cancellation of a leave whose
    status is the legacy Pending, not PendingParent, is accepted with 200
    and changes the record. *)
Lemma cancel_accepted_in_legacy_pending :
  let db := sampleDb "Pending" [created] in
  let r := cancelMyLeaveRequest asha 40 db in
  Leave.status <$> leaves db !! 40 = Some "Pending" /\
  "Pending" <> "PendingParent" /\
  statusCode r.1 = 200 /\
  leaves r.2 !! 40 = Some (sampleLeave "Cancelled" [created]) /\
  leaves r.2 !! 40 <> leaves db !! 40.
Proof.
  repeat split; try (vm_compute; reflexivity); try discriminate.
Qed.

Lemma falsy_missing v : falsy v = true <-> missing v.
Proof.
  unfold falsy, missing. destruct v as [s|].
  - rewrite String.eqb_eq. split; [intros ->; auto | intros [|[= ->]]; done].
  - split; auto.
Qed.

(** C5, as amended.  Creation fails with 400 exactly when the reason or
    the type is missing or the empty string as given (the reason is not
    trimmed before this test), a date is missing, or both dates are valid
    and outDate >= inDate; on such a failure no leave is created. *)
Theorem create_refuses_missing_fields_and_date_order now user body db :
  let r := createLeaveRequest now user body db in
  (statusCode r.1 = 400 <-> refusedBody body) /\
  (statusCode r.1 = 400 -> r.2 = db).
Proof.
  unfold createLeaveRequest, refusedBody.
  destruct (falsy (body_reason body)) eqn:Hr; simpl.
  { split; [|done]. split; [|done]. intros _. left. by apply falsy_missing. }
  destruct (falsy (body_type body)) eqn:Ht; simpl.
  { split; [|done]. split; [|done]. intros _. right. left. by apply falsy_missing. }
  assert (~ missing (body_reason body)) by (rewrite <- falsy_missing; congruence).
  assert (~ missing (body_type body)) by (rewrite <- falsy_missing; congruence).
  destruct (body_outDate body) as [outDateObj|]; simpl; [|split; [split|]; auto].
  destruct (body_inDate body) as [inDateObj|]; simpl;
    [|split; [split|]; auto 6].
  destruct (date_ge outDateObj inDateObj) eqn:Hd; simpl.
  { split; [|done]. split; [|done]. intros _. do 4 right.
    destruct outDateObj as [a|], inDateObj as [b|]; try discriminate.
    exists a, b. repeat split. by apply Z.leb_le. }
  assert (~ exists out_ in_, Some outDateObj = Some (Some out_) /\
            Some inDateObj = Some (Some in_) /\ (in_ <= out_)%Z) as Hno.
  { intros (a & b & [= ->] & [= ->] & Hle). simpl in Hd.
    apply Z.leb_gt in Hd. lia. }
  assert (forall res : Response * Db,
            statusCode res.1 <> 400 ->
            (statusCode res.1 = 400 <->
             missing (body_reason body) \/ missing (body_type body) \/
             Some outDateObj = None \/ Some inDateObj = None \/
             exists out_ in_, Some outDateObj = Some (Some out_) /\
               Some inDateObj = Some (Some in_) /\ (in_ <= out_)%Z) /\
            (statusCode res.1 = 400 -> res.2 = db)) as Hother.
  { intros res Hne. split; [split|]; [done | | done].
    intros [?|[?|[?|[?|?]]]]; try done. }
  destruct (Student.findOne _ _ _); [|by apply Hother].
  destruct (Leave.create _ _) as [[id ls]|]; [|by apply Hother].
  destruct (populatedStudentName _ _); by apply Hother.
Qed.

(** The theorem at equal dates. *)
Lemma create_refuses_missing_fields_and_date_order_witness :
  refusedBody (mkCreateBody (Some "Home visit") (Some "Personal")
                 (Some (Some 1000%Z)) (Some (Some 1000%Z)) None None) /\
  createLeaveRequest 50 asha
    (mkCreateBody (Some "Home visit") (Some "Personal")
       (Some (Some 1000%Z)) (Some (Some 1000%Z)) None None) emptyDb
  = (failure 400 "Out date must be before in date", emptyDb).
Proof.
  assert (refusedBody (mkCreateBody (Some "Home visit") (Some "Personal")
                         (Some (Some 1000%Z)) (Some (Some 1000%Z)) None None))
    as H.
  { do 4 right. exists 1000%Z, 1000%Z. repeat split. lia. }
  split; [exact H|].
  pose proof (create_refuses_missing_fields_and_date_order 50%Z asha
                (mkCreateBody (Some "Home visit") (Some "Personal")
                   (Some (Some 1000%Z)) (Some (Some 1000%Z)) None None)
                emptyDb) as [Hiff Hdb].
  apply injective_projections; [reflexivity | exact (Hdb (proj2 Hiff H))].
Defined.

(** C5, as stated, fails: a reason of blanks only is empty after
    trimming, and the request is not answered with 400. *)
Lemma blank_reason_not_refused :
  let body :=
    mkCreateBody (Some "   ") (Some "Personal")
      (Some (Some 1000%Z)) (Some (Some 2000%Z)) None None in
  let r := createLeaveRequest 50 asha body emptyDb in
  trim "   " = "" /\ statusCode r.1 <> 400.
Proof. split; [reflexivity | vm_compute; discriminate]. Qed.

Lemma parent_check_resolved now user id status reason db parent l student :
  status = "Approved" \/ status = "Rejected" ->
  Parent.findOne (user_id user) (user_institutionId user) (parents db)
    = Some parent ->
  leaves db !! id = Some l ->
  Leave.institutionId l = user_institutionId user ->
  Student.findById (Leave.studentId l) (students db) = Some student ->
  parentApproveOrReject_check now user id status reason db =
    if negb (Nat.eqb (Leave.studentId l) (Parent.studentId parent))
    then inl (failure 403 "Not authorized to approve this leave request")
    else if negb (String.eqb (Leave.status l) "PendingParent")
    then inl (failure 400 "This leave request is not awaiting parent approval")
    else inr (parentDecided now user status reason l).
Proof.
  intros Hs Hp Hl Hi Hst. unfold parentApproveOrReject_check.
  assert (Leave.findOne id (user_institutionId user) (leaves db) = Some l) as ->
    by by apply findOne_Some.
  apply includes_decision in Hs.
  rewrite Hs, Hp, Hst, (student_findById_id _ _ _ Hst). cbn [negb].
  destruct (negb (Nat.eqb _ _)); [done|].
  destruct (negb (String.eqb _ _)); [done|].
  unfold parentDecided. by destruct (String.eqb status "Rejected").
Qed.

(** The guardian check where the student of the leave is found.  For a
    guardian decision with a decision value of Approved or Rejected: a
    caller with no guardian profile in the caller's institution gets 403;
    a guardian whose student is not the student of the leave gets 403 when
    the student document of the leave exists; in both cases nothing
    changes.  A decision is accepted only from a guardian whose student is
    the leave's. *)
Theorem guardian_decision_needs_linked_guardian now user id status reason db :
  status = "Approved" \/ status = "Rejected" ->
  let r := parentApproveOrReject now user id status reason db in
  (Parent.findOne (user_id user) (user_institutionId user) (parents db) = None ->
   r.1 = failure 403 "Parent profile not found" /\ r.2 = db) /\
  (forall parent l,
     Parent.findOne (user_id user) (user_institutionId user) (parents db)
       = Some parent ->
     leaves db !! id = Some l ->
     Leave.institutionId l = user_institutionId user ->
     is_Some (Student.findById (Leave.studentId l) (students db)) ->
     Parent.studentId parent <> Leave.studentId l ->
     r.1 = failure 403 "Not authorized to approve this leave request" /\
     r.2 = db) /\
  (statusCode r.1 = 200 ->
   exists parent l,
     Parent.findOne (user_id user) (user_institutionId user) (parents db)
       = Some parent /\
     leaves db !! id = Some l /\
     Parent.studentId parent = Leave.studentId l).
Proof.
  intros Hs r. subst r. split; [|split].
  - intros Hnone. unfold parentApproveOrReject, parentApproveOrReject_check.
    apply includes_decision in Hs. by rewrite Hs, Hnone.
  - intros parent l Hp Hl Hi [student Hst] Hne. unfold parentApproveOrReject.
    rewrite (parent_check_resolved _ _ _ _ _ _ _ _ _ Hs Hp Hl Hi Hst).
    destruct (Nat.eqb_spec (Leave.studentId l) (Parent.studentId parent));
      [congruence | done].
  - unfold parentApproveOrReject.
    destruct (parentApproveOrReject_check _ _ _ _ _ _) as [res | leave'] eqn:E.
    + apply parent_check_inl in E as (code & msg & -> & Hc). simpl. congruence.
    + apply parent_check_inr in E
        as (parent & l & _ & Hp & Hl & _ & _ & Hlink & _ & _). eauto.
Qed.

(** The theorem at a decision by the guardian of another student. *)
Lemma guardian_decision_needs_linked_guardian_witness :
  ("Approved" = "Approved" \/ "Approved" = "Rejected") /\
  Parent.findOne 14 1 sampleParents = Some (Parent.mk 31 14 1 21) /\
  leaves (sampleDb "PendingParent" [created]) !! 40
    = Some (sampleLeave "PendingParent" [created]) /\
  is_Some (Student.findById 20 sampleStudents) /\
  21 <> 20 /\
  parentApproveOrReject 60 kiran 40 "Approved" None
    (sampleDb "PendingParent" [created])
  = (failure 403 "Not authorized to approve this leave request",
     sampleDb "PendingParent" [created]).
Proof.
  assert ("Approved" = "Approved" \/ "Approved" = "Rejected") as Hs
    by (left; reflexivity).
  assert (is_Some (Student.findById 20 sampleStudents)) as Hst
    by (eexists; reflexivity).
  assert (21 <> 20) as Hne by lia.
  split; [exact Hs|]. split; [reflexivity|]. split; [reflexivity|].
  split; [exact Hst|]. split; [exact Hne|].
  destruct (proj1 (proj2 (guardian_decision_needs_linked_guardian 60%Z kiran 40
                            "Approved" None
                            (sampleDb "PendingParent" [created]) Hs))
              (Parent.mk 31 14 1 21) (sampleLeave "PendingParent" [created])
              eq_refl eq_refl eq_refl Hst Hne) as [H1 H2].
  apply injective_projections; assumption.
Defined.

(** C6.  A guardian of another student, deciding on a leave whose student
    document [deleteStudent] has removed, is answered with 500 and not
    with 403: the handler reads [leave.studentId._id] before it compares
    it with the guardian's student, and the reference populates to null.
    Nothing is written.  [getAllLeaveRequests] reads the same reference
    with [leave.studentId?.userId?.name]. *)
Lemma unlinked_guardian_of_deleted_student_gets_500 :
  let db0 := sampleDb "PendingParent" [created] in
  let db := (deleteStudent meera 20 db0).2 in
  let r := parentApproveOrReject 60 kiran 40 "Approved" None db in
  statusCode (deleteStudent meera 20 db0).1 = 200 /\
  Parent.findOne (user_id kiran) (user_institutionId kiran) (parents db)
    = Some (Parent.mk 31 14 1 21) /\
  Leave.studentId <$> leaves db !! 40 = Some 20 /\
  Leave.institutionId <$> leaves db !! 40 = Some (user_institutionId kiran) /\
  Student.findById 20 (students db) = None /\
  r.1 = failure 500 "Server error while updating leave request" /\
  statusCode r.1 <> 403 /\
  r.2 = db.
Proof. vm_compute. repeat split; discriminate. Qed.

(** C7.  A warden decision on a leave of the caller's institution whose
    status is not ApprovedByParent fails with 400 and changes nothing;
    for a decision value of Approved or Rejected the answer says that
    only parent-approved requests can be approved or rejected by the
    warden. *)
Theorem warden_decision_needs_parent_approval now user id status reason db l :
  leaves db !! id = Some l ->
  Leave.institutionId l = user_institutionId user ->
  Leave.status l <> "ApprovedByParent" ->
  let r := updateLeaveStatus now user id status reason db in
  statusCode r.1 = 400 /\ success r.1 = false /\ r.2 = db /\
  (status = "Approved" \/ status = "Rejected" ->
   r.1 = failure 400
     "Only parent-approved requests can be approved/rejected by warden").
Proof.
  intros Hl Hi Hne r. subst r.
  unfold updateLeaveStatus, updateLeaveStatus_check.
  assert (Leave.findOne id (user_institutionId user) (leaves db) = Some l) as ->
    by by apply findOne_Some.
  apply String.eqb_neq in Hne. rewrite Hne. cbn [negb].
  destruct (includes ["Approved"; "Rejected"] status) eqn:Hs; cbn [negb].
  - done.
  - repeat split. intros Hv. apply includes_decision in Hv. congruence.
Qed.

(** The theorem at a warden's approval of a leave still waiting for the
    guardian. *)
Lemma warden_decision_needs_parent_approval_witness :
  leaves (sampleDb "PendingParent" [created]) !! 40
    = Some (sampleLeave "PendingParent" [created]) /\
  "PendingParent" <> "ApprovedByParent" /\
  statusCode (updateLeaveStatus 70 meera 40 "Approved" None
                (sampleDb "PendingParent" [created])).1 = 400 /\
  (updateLeaveStatus 70 meera 40 "Approved" None
     (sampleDb "PendingParent" [created])).2
  = sampleDb "PendingParent" [created].
Proof.
  assert ("PendingParent" <> "ApprovedByParent") as Hne by discriminate.
  split; [reflexivity|]. split; [exact Hne|].
  destruct (warden_decision_needs_parent_approval 70%Z meera 40 "Approved" None
              (sampleDb "PendingParent" [created])
              (sampleLeave "PendingParent" [created]) eq_refl eq_refl Hne)
    as (H1 & _ & H2 & _).
  split; assumption.
Defined.

(** C10.  A guardian or warden decision whose decision value is neither
    Approved nor Rejected is answered with 400, "Invalid status. Must be
    Approved or Rejected", whatever the database holds and whoever the
    caller is, and the database is left as it was. *)
Theorem invalid_decision_refused_first now user id status reason db :
  status <> "Approved" -> status <> "Rejected" ->
  parentApproveOrReject now user id status reason db
    = (failure 400 "Invalid status. Must be Approved or Rejected", db) /\
  updateLeaveStatus now user id status reason db
    = (failure 400 "Invalid status. Must be Approved or Rejected", db).
Proof.
  intros Ha Hr.
  assert (includes ["Approved"; "Rejected"] status = false) as Hs.
  { destruct (includes _ status) eqn:E; [|done].
    apply includes_decision in E. tauto. }
  unfold parentApproveOrReject, parentApproveOrReject_check,
    updateLeaveStatus, updateLeaveStatus_check.
  by rewrite Hs.
Qed.

(** The theorem at the decision value "Maybe", sent by a caller who is
    neither a guardian nor of the leave's institution. *)
Lemma invalid_decision_refused_first_witness :
  "Maybe" <> "Approved" /\ "Maybe" <> "Rejected" /\
  parentApproveOrReject 60 omar 40 "Maybe" None
    (sampleDb "PendingParent" [created])
  = (failure 400 "Invalid status. Must be Approved or Rejected",
     sampleDb "PendingParent" [created]).
Proof.
  assert ("Maybe" <> "Approved") as Ha by discriminate.
  assert ("Maybe" <> "Rejected") as Hr by discriminate.
  split; [exact Ha|]. split; [exact Hr|].
  exact (proj1 (invalid_decision_refused_first 60%Z omar 40 "Maybe" None
                  (sampleDb "PendingParent" [created]) Ha Hr)).
Defined.

Lemma find_In (P : Leave.t -> bool) (coll : gmap ObjectId Leave.t) id l :
  In (id, l) (Leave.find P coll) -> coll !! id = Some l /\ P l = true.
Proof.
  unfold Leave.find. intros Hin.
  apply list_elem_of_In in Hin. rewrite merge_sort_Permutation in Hin.
  apply list_elem_of_In, filter_In in Hin as [Hin HP].
  apply list_elem_of_In, elem_of_map_to_list in Hin. done.
Qed.

Lemma disclosed_in_institution r db id l :
  In (id, l) (disclosed (serve r db).1) ->
  Leave.institutionId l = user_institutionId (requester r).
Proof.
  destruct r as [now user body | user status | user | now user id0 e reason];
    simpl.
  - destruct (create_outcome now user body db)
      as [[_ (code & msg & -> & _)]
         | (id1 & l1 & _ & _ & Hi & _ & _ & [-> | [msg ->]])];
      unfold disclosed; simpl; try done.
    intros [[= <- <-] | []]. done.
  - unfold disclosed; simpl. intros Hin.
    apply find_In in Hin as [_ Hin].
    apply andb_true_iff in Hin as [_ Hin]. by apply Nat.eqb_eq.
  - unfold getMyLeaveRequests.
    destruct (Student.findOne _ _ _); unfold disclosed; simpl; [|done].
    intros Hin. apply find_In in Hin as [_ Hin].
    apply andb_true_iff in Hin as [_ Hin]. by apply Nat.eqb_eq.
  - destruct (handle_outcome now user id0 e reason db)
      as [[_ (code & msg & -> & _)]
         | (l0 & l' & _ & [Hi _] & _ & _ & Hi' & _ & _ & [-> | [msg ->]])];
      unfold disclosed; simpl; try done.
    intros [[= <- <-] | []]. congruence.
Qed.

Lemma foreign_leave_kept r db id l :
  leaves db !! id = Some l ->
  Leave.institutionId l <> user_institutionId (requester r) ->
  leaves (serve r db).2 !! id = Some l.
Proof.
  intros Hl Hne.
  destruct r as [now user body | user status | user | now user id0 e reason];
    simpl in *.
  - destruct (create_outcome now user body db)
      as [[-> _] | (id1 & l1 & Hfresh & -> & _)]; [done|].
    simpl. rewrite lookup_insert_ne; [done | congruence].
  - done.
  - unfold getMyLeaveRequests. by destruct (Student.findOne _ _ _).
  - destruct (handle_outcome now user id0 e reason db)
      as [[-> _] | (l0 & l' & Hl0 & [Hi _] & -> & _)]; [done|].
    simpl. rewrite lookup_insert_ne; [done | congruence].
Qed.

Lemma foreign_leave_not_found now user id e reason db l :
  leaves db !! id = Some l ->
  Leave.institutionId l <> user_institutionId user ->
  let r := handle now user id e reason db in
  r.2 = db /\ success r.1 = false /\
  (reachesLoad user e db -> statusCode r.1 = 404).
Proof.
  intros Hl Hne r. subst r.
  pose proof (findOne_None _ _ _ _ Hl Hne) as Hnone.
  destruct (handle_outcome now user id e reason db)
    as [[Hdb (code & msg & Hres & _)] | (l0 & l' & Hl0 & [Hi _] & _)];
    [|congruence].
  split; [done|]. split; [by rewrite Hres|].
  destruct e as [status | status |]; simpl.
  - intros [Hs [parent Hp]]. apply includes_decision in Hs.
    unfold parentApproveOrReject, parentApproveOrReject_check.
    by rewrite Hs, Hp, Hnone.
  - intros Hs. apply includes_decision in Hs.
    unfold updateLeaveStatus, updateLeaveStatus_check. by rewrite Hs, Hnone.
  - intros _. unfold cancelMyLeaveRequest, cancelMyLeaveRequest_check.
    rewrite Hnone. by destruct (Student.findOne _ _ _).
Qed.

(** C8.  Whatever the request, the leaves its answer shows belong to the
    caller's institution, and a leave of another institution is stored
    after the request as it was before.  A guardian decision, warden
    decision or cancellation aimed at the id of a leave of another
    institution changes nothing and fails, with 404 once the decision
    value is valid and the caller's own profile, where one is needed, is
    found. *)
Theorem institutions_are_isolated :
  (forall r db id l,
     In (id, l) (disclosed (serve r db).1) ->
     Leave.institutionId l = user_institutionId (requester r)) /\
  (forall r db id l,
     leaves db !! id = Some l ->
     Leave.institutionId l <> user_institutionId (requester r) ->
     leaves (serve r db).2 !! id = Some l) /\
  (forall now user id e reason db l,
     leaves db !! id = Some l ->
     Leave.institutionId l <> user_institutionId user ->
     let r := handle now user id e reason db in
     r.2 = db /\ success r.1 = false /\
     (reachesLoad user e db -> statusCode r.1 = 404)).
Proof.
  split; [|split].
  - apply disclosed_in_institution.
  - apply foreign_leave_kept.
  - apply foreign_leave_not_found.
Qed.

(** The theorem at a warden of institution 2 approving, and listing, a
    leave of institution 1. *)
Lemma institutions_are_isolated_witness :
  leaves (sampleDb "ApprovedByParent" [created; parentApproved]) !! 40
    = Some (sampleLeave "ApprovedByParent" [created; parentApproved]) /\
  1 <> 2 /\
  statusCode (updateLeaveStatus 70 omar 40 "Approved" None
                (sampleDb "ApprovedByParent" [created; parentApproved])).1
    = 404 /\
  leaves (serve (GetAllLeaves omar None)
            (sampleDb "ApprovedByParent" [created; parentApproved])).2 !! 40
    = Some (sampleLeave "ApprovedByParent" [created; parentApproved]) /\
  ~ In (40, sampleLeave "ApprovedByParent" [created; parentApproved])
      (disclosed (serve (GetAllLeaves omar None)
                    (sampleDb "ApprovedByParent" [created; parentApproved])).1).
Proof.
  assert (1 <> 2) as Hne by lia.
  split; [reflexivity|]. split; [exact Hne|]. split; [|split].
  - apply (proj2 (proj2 institutions_are_isolated) 70%Z omar 40
             (WardenDecide "Approved") None
             (sampleDb "ApprovedByParent" [created; parentApproved])
             (sampleLeave "ApprovedByParent" [created; parentApproved])
             eq_refl Hne).
    left. reflexivity.
  - exact (proj1 (proj2 institutions_are_isolated) (GetAllLeaves omar None)
             (sampleDb "ApprovedByParent" [created; parentApproved]) 40
             (sampleLeave "ApprovedByParent" [created; parentApproved])
             eq_refl Hne).
  - intros Hin.
    exact (Hne (proj1 institutions_are_isolated (GetAllLeaves omar None)
                  (sampleDb "ApprovedByParent" [created; parentApproved]) 40
                  (sampleLeave "ApprovedByParent" [created; parentApproved])
                  Hin)).
Defined.

(** ** Two decisions in a race *)

Lemma applyUpdate_kept u l :
  Leave.institutionId (Leave.applyUpdate u l) = Leave.institutionId l /\
  Leave.studentId (Leave.applyUpdate u l) = Leave.studentId l /\
  Leave.status (Leave.applyUpdate u l) = UpdateData.status u /\
  Leave.statusHistory (Leave.applyUpdate u l) = UpdateData.statusHistory u.
Proof.
  unfold Leave.applyUpdate.
  destruct (UpdateData.approvedAt u), (UpdateData.rejectionReason u); done.
Qed.

Lemma populatedStudentName_written db ls l l' :
  Leave.studentId l' = Leave.studentId l ->
  populatedStudentName (withLeaves db ls) l' = populatedStudentName db l.
Proof. intros H. unfold populatedStudentName. simpl. by rewrite H. Qed.






(** ** Further properties of the leave controller *)

(** What a decision or cancellation writes, if it writes. *)
Lemma handle_written now user id e reason db :
  let r := handle now user id e reason db in
  r.2 = db \/
  exists l l',
    leaves db !! id = Some l /\
    r.2 = withLeaves db (<[id := l']> (leaves db)) /\
    openStatus (Leave.status l) /\
    sameRequest l l' /\
    Leave.statusHistory l `prefix_of` Leave.statusHistory l'.
Proof.
  destruct e as [status | status |]; simpl.
  - unfold parentApproveOrReject.
    destruct (parentApproveOrReject_check _ _ _ _ _ _) as [res | leave'] eqn:E;
      [by left|].
    right. apply parent_check_inr in E
      as (parent & l & _ & _ & Hl & _ & _ & _ & Hpend & ->).
    rewrite (parent_commit_found _ _ _ _ _ Hl). eexists l, _.
    split; [done|]. split; [done|]. split; [unfold openStatus; auto|].
    split; [by repeat split | by apply prefix_app_r].
  - unfold updateLeaveStatus.
    destruct (updateLeaveStatus_check _ _ _ _ _ _) as [res | u] eqn:E;
      [by left|].
    right. apply warden_check_inr in E as (l & Hs & Hl & Hi & Hap & ->).
    rewrite (warden_commit_found _ _ _ _ _ _ Hl Hi). eexists l, _.
    split; [done|]. split; [done|]. split; [unfold openStatus; auto|].
    rewrite applyUpdate_wardenUpdate by done.
    split; [by repeat split | by apply prefix_app_r].
  - unfold cancelMyLeaveRequest.
    destruct (cancelMyLeaveRequest_check _ _ _) as [res | leave'] eqn:E;
      [by left|].
    right. apply cancel_check_inr in E as (_ & l & _ & Hl & _ & _ & Hpend & ->).
    rewrite (cancel_commit_found _ _ _ _ Hl). eexists l, _.
    split; [done|]. split; [done|].
    split; [unfold openStatus; tauto|]. split; [by repeat split | done].
Qed.

Lemma serve_keeps_closed r db id l :
  leaves db !! id = Some l ->
  ~ openStatus (Leave.status l) ->
  leaves (serve r db).2 !! id = Some l.
Proof.
  intros Hl Hclosed.
  destruct r as [now user body | user status | user | now user id0 e reason];
    simpl.
  - destruct (create_outcome now user body db)
      as [[-> _] | (id1 & l1 & Hfresh & -> & _)]; [done|].
    simpl. rewrite lookup_insert_ne; [done | congruence].
  - done.
  - unfold getMyLeaveRequests. by destruct (Student.findOne _ _ _).
  - destruct (handle_written now user id0 e reason db)
      as [-> | (l0 & l' & Hl0 & -> & Hopen & _)]; [done|].
    simpl. destruct (decide (id0 = id)) as [-> | Hne].
    + congruence.
    + by rewrite lookup_insert_ne.
Qed.

(** X1.  A leave whose status is none of Pending, PendingParent and
    ApprovedByParent is closed for good: whatever requests the controller
    serves afterwards, the stored document stays exactly as it is. *)
Theorem closed_leave_never_changes rs db id l :
  leaves db !! id = Some l ->
  ~ openStatus (Leave.status l) ->
  leaves (run rs db) !! id = Some l.
Proof.
  revert db. induction rs as [|r rs IH]; intros db Hl Hclosed; simpl; [done|].
  apply IH; [|done]. by apply serve_keeps_closed.
Qed.

Lemma closed_leave_never_changes_witness :
  leaves (sampleDb "Rejected" [created; parentApproved]) !! 40
    = Some (sampleLeave "Rejected" [created; parentApproved]) /\
  ~ openStatus "Rejected" /\
  leaves (run everyEvent (sampleDb "Rejected" [created; parentApproved])) !! 40
    = Some (sampleLeave "Rejected" [created; parentApproved]).
Proof.
  assert (~ openStatus "Rejected") as H
    by (intros [H | [H | H]]; discriminate H).
  split; [reflexivity|]. split; [exact H|].
  exact (closed_leave_never_changes everyEvent
           (sampleDb "Rejected" [created; parentApproved]) 40
           (sampleLeave "Rejected" [created; parentApproved]) eq_refl H).
Defined.

Lemma serve_keeps_request r db id l :
  leaves db !! id = Some l ->
  exists l', leaves (serve r db).2 !! id = Some l' /\
             sameRequest l l' /\
             Leave.statusHistory l `prefix_of` Leave.statusHistory l'.
Proof.
  intros Hl.
  assert (sameRequest l l) as Hrefl by by repeat split.
  destruct r as [now user body | user status | user | now user id0 e reason];
    simpl.
  - destruct (create_outcome now user body db)
      as [[-> _] | (id1 & l1 & Hfresh & -> & _)]; [by exists l|].
    simpl. exists l. rewrite lookup_insert_ne; [done | congruence].
  - by exists l.
  - unfold getMyLeaveRequests. destruct (Student.findOne _ _ _); by exists l.
  - destruct (handle_written now user id0 e reason db)
      as [-> | (l0 & l' & Hl0 & -> & _ & Hsame & Hpre)]; [by exists l|].
    simpl. destruct (decide (id0 = id)) as [-> | Hne].
    + rewrite lookup_insert_eq. exists l'. by assert (l0 = l) as -> by congruence.
    + rewrite lookup_insert_ne by done. by exists l.
Qed.

Lemma run_keeps_request rs db id l :
  leaves db !! id = Some l ->
  exists l', leaves (run rs db) !! id = Some l' /\
             sameRequest l l' /\
             Leave.statusHistory l `prefix_of` Leave.statusHistory l'.
Proof.
  revert db l. induction rs as [|r rs IH]; intros db l Hl; simpl.
  - exists l. by repeat split.
  - destruct (serve_keeps_request r db id l Hl) as (l1 & Hl1 & Hs1 & Hp1).
    destruct (IH _ _ Hl1) as (l2 & Hl2 & Hs2 & Hp2).
    exists l2. split; [done|]. split.
    + unfold sameRequest in *. intuition congruence.
    + by etrans.
Qed.

(** X2.  The controller never removes a leave and never changes what was
    requested: after any sequence of requests a leave is still stored
    under its id with the same institution, student, reason, type, dates,
    times and creation time. *)
Theorem requested_fields_never_change rs db id l :
  leaves db !! id = Some l ->
  exists l', leaves (run rs db) !! id = Some l' /\ sameRequest l l'.
Proof.
  intros Hl. destruct (run_keeps_request rs db id l Hl) as (l' & ? & ? & _).
  eauto.
Qed.

Lemma requested_fields_never_change_witness :
  leaves (sampleDb "PendingParent" [created]) !! 40
    = Some (sampleLeave "PendingParent" [created]) /\
  exists l',
    leaves (run twoDecisions (sampleDb "PendingParent" [created])) !! 40
      = Some l' /\
    sameRequest (sampleLeave "PendingParent" [created]) l'.
Proof.
  split; [reflexivity|].
  exact (requested_fields_never_change twoDecisions
           (sampleDb "PendingParent" [created]) 40
           (sampleLeave "PendingParent" [created]) eq_refl).
Defined.

(** X3.  The status history only grows at its end: after any sequence of
    requests the history a leave had before is a prefix of the history it
    has then. *)
Theorem history_only_grows rs db id l :
  leaves db !! id = Some l ->
  exists l', leaves (run rs db) !! id = Some l' /\
             Leave.statusHistory l `prefix_of` Leave.statusHistory l'.
Proof.
  intros Hl. destruct (run_keeps_request rs db id l Hl) as (l' & ? & _ & ?).
  eauto.
Qed.

Lemma history_only_grows_witness :
  leaves (sampleDb "PendingParent" [created]) !! 40
    = Some (sampleLeave "PendingParent" [created]) /\
  exists l',
    leaves (run twoDecisions (sampleDb "PendingParent" [created])) !! 40
      = Some l' /\
    [created] `prefix_of` Leave.statusHistory l'.
Proof.
  split; [reflexivity|].
  exact (history_only_grows twoDecisions
           (sampleDb "PendingParent" [created]) 40
           (sampleLeave "PendingParent" [created]) eq_refl).
Defined.

(** *** The two listings *)

Lemma find_In_iff (P : Leave.t -> bool) (coll : gmap ObjectId Leave.t) id l :
  In (id, l) (Leave.find P coll) <-> coll !! id = Some l /\ P l = true.
Proof.
  unfold Leave.find.
  rewrite <- list_elem_of_In, merge_sort_Permutation, list_elem_of_In, filter_In.
  rewrite <- list_elem_of_In, elem_of_map_to_list. done.
Qed.

#[local] Instance newerFirst_transitive : Transitive Leave.newerFirst.
Proof. intros a b c. unfold Leave.newerFirst. lia. Qed.

#[local] Instance newerFirst_total : Total Leave.newerFirst.
Proof. intros a b. unfold Leave.newerFirst. lia. Qed.

Lemma find_sorted (P : Leave.t -> bool) (coll : gmap ObjectId Leave.t) :
  StronglySorted Leave.newerFirst (Leave.find P coll) /\
  NoDup (Leave.find P coll).*1.
Proof.
  split.
  - apply StronglySorted_merge_sort; apply _.
  - unfold Leave.find. rewrite merge_sort_Permutation.
    pose proof (NoDup_fst_map_to_list coll) as Hnd.
    induction (map_to_list coll) as [|[i x] ls IH]; simpl; [constructor|].
    apply NoDup_cons in Hnd as [Hnotin Hnd].
    destruct (P x); simpl; [|by apply IH].
    apply NoDup_cons. split; [|by apply IH].
    intros Hin. apply Hnotin.
    apply list_elem_of_fmap in Hin as [[j y] [-> Hin]].
    apply list_elem_of_In, filter_In in Hin as [Hin _].
    apply list_elem_of_fmap. exists (j, y). split; [done|].
    by apply list_elem_of_In.
Qed.

Lemma getAll_In_iff user status db id l :
  In (id, l) (disclosed (getAllLeaveRequests user status db).1) <->
  leaves db !! id = Some l /\
  Leave.institutionId l = user_institutionId user /\
  (missing status \/ status = Some (Leave.status l)).
Proof.
  unfold getAllLeaveRequests, disclosed. simpl.
  rewrite find_In_iff, andb_true_iff, Nat.eqb_eq.
  assert ((if falsy status then true
           else String.eqb (Leave.status l) (default "" status)) = true <->
          missing status \/ status = Some (Leave.status l)) as ->; [|tauto].
  destruct (falsy status) eqn:Hf.
  - apply falsy_missing in Hf. tauto.
  - assert (~ missing status) by (rewrite <- falsy_missing; congruence).
    rewrite String.eqb_eq. destruct status as [s|]; simpl.
    + split; [intros ->; auto | intros [? | [= ->]]; done].
    + exfalso. unfold missing in *. tauto.
Qed.

(** X4.  The warden's listing changes nothing, answers 200, and shows
    exactly the leaves of the caller's institution: all of them when no
    status (or the empty string) is asked for, and otherwise those whose
    status is the one asked for. *)
Theorem getAllLeaveRequests_lists_exactly user status db id l :
  let r := getAllLeaveRequests user status db in
  r.2 = db /\ statusCode r.1 = 200 /\
  (In (id, l) (disclosed r.1) <->
   leaves db !! id = Some l /\
   Leave.institutionId l = user_institutionId user /\
   (missing status \/ status = Some (Leave.status l))).
Proof.
  split; [done|]. split; [done|]. apply getAll_In_iff.
Qed.

(** X5.  Both listings come newest first, every entry created no earlier
    than all the entries after it, and show no leave twice. *)
Theorem listings_newest_first_without_repeats user status db :
  (StronglySorted Leave.newerFirst
     (disclosed (getAllLeaveRequests user status db).1) /\
   NoDup (disclosed (getAllLeaveRequests user status db).1).*1) /\
  (StronglySorted Leave.newerFirst
     (disclosed (getMyLeaveRequests user db).1) /\
   NoDup (disclosed (getMyLeaveRequests user db).1).*1).
Proof.
  split.
  - apply find_sorted.
  - unfold getMyLeaveRequests. destruct (Student.findOne _ _ _).
    + apply find_sorted.
    + split; constructor.
Qed.

(** X6.  A caller without a student profile in the caller's institution
    gets 404 from the listing of own leaves; a caller with one gets 200
    and exactly the leaves of that student in that institution.  The
    database is left as it was. *)
Theorem getMyLeaveRequests_lists_own_leaves user db :
  let r := getMyLeaveRequests user db in
  r.2 = db /\
  match Student.findOne (user_id user) (user_institutionId user) (students db) with
  | None => r.1 = failure 404 "Student profile not found"
  | Some student =>
      statusCode r.1 = 200 /\
      forall id l,
        In (id, l) (disclosed r.1) <->
        leaves db !! id = Some l /\
        Leave.studentId l = Student._id student /\
        Leave.institutionId l = user_institutionId user
  end.
Proof.
  unfold getMyLeaveRequests.
  destruct (Student.findOne _ _ _) as [student|]; simpl; [|done].
  split; [done|]. split; [done|]. intros id l. unfold disclosed. simpl.
  by rewrite find_In_iff, andb_true_iff, !Nat.eqb_eq.
Qed.

(** *** Creation *)

Lemma create_unfold now user body db :
  createLeaveRequest now user body db =
    if falsy (body_reason body) || falsy (body_type body)
       || negb (bool_decide (is_Some (body_outDate body)))
       || negb (bool_decide (is_Some (body_inDate body)))
    then (failure 400 "Please provide reason, type, out date, and in date", db)
    else if date_ge (default None (body_outDate body))
                    (default None (body_inDate body))
    then (failure 400 "Out date must be before in date", db)
    else
      match Student.findOne (user_id user) (user_institutionId user)
              (students db) with
      | None => (failure 404 "Student profile not found", db)
      | Some student =>
          let leave := newLeave now user student body in
          let id := fresh (dom (leaves db)) in
          if Leave.schemaValid leave
          then (match populatedStudentName db leave with
                | Some _ =>
                    mkRes 201 true (Some "Leave request submitted successfully")
                      (OneLeave id leave)
                | None => failure 500 "Server error while creating leave request"
                end, withLeaves db (<[id := leave]> (leaves db)))
          else (failure 500 "Server error while creating leave request", db)
      end.
Proof.
  unfold createLeaveRequest.
  destruct (_ || _); [done|]. destruct (date_ge _ _); [done|].
  destruct (Student.findOne _ _ _) as [student|]; [|done].
  unfold Leave.create. cbn zeta. fold (creationEntry now).
  fold (newLeave now user student body).
  destruct (Leave.schemaValid _); [|done].
  change (populatedStudentName (withLeaves db ?ls) ?l)
    with (populatedStudentName db l).
  by destruct (populatedStudentName _ _).
Qed.

Lemma create_201 now user body db :
  statusCode (createLeaveRequest now user body db).1 = 201 ->
  exists id student,
    Student.findOne (user_id user) (user_institutionId user) (students db)
      = Some student /\
    leaves db !! id = None /\
    is_Some (populatedStudentName db (newLeave now user student body)) /\
    createLeaveRequest now user body db =
      (mkRes 201 true (Some "Leave request submitted successfully")
         (OneLeave id (newLeave now user student body)),
       withLeaves db (<[id := newLeave now user student body]> (leaves db))).
Proof.
  rewrite create_unfold.
  destruct (_ || _); [done|]. destruct (date_ge _ _); [done|].
  destruct (Student.findOne _ _ _) as [student|]; [|done]. cbn zeta.
  destruct (Leave.schemaValid _); [|done].
  destruct (populatedStudentName _ _) as [name|] eqn:Hn; [|done].
  intros _. exists (fresh (dom (leaves db))), student.
  split; [done|]. split; [apply not_elem_of_dom, is_fresh|].
  split; [by rewrite Hn | done].
Qed.

Lemma trimStart_allWhiteSpace s :
  allWhiteSpace s = true <-> trimStart s = EmptyString.
Proof.
  assert (forall n s, String.length s < n ->
            (allWhiteSpace s = true <-> trimStart s = EmptyString)) as H.
  { clear s. induction n as [|n IH]; intros s Hn; [lia|].
    destruct s as [|c1 s1]; [done|]. cbn [allWhiteSpace trimStart].
    cbn [String.length] in Hn.
    destruct (isWhiteSpace c1); [apply IH; lia|].
    destruct s1 as [|c2 s2]; [done|]. cbn [String.length] in Hn.
    destruct (isWhiteSpace2 c1 c2); [apply IH; lia|].
    destruct s2 as [|c3 s3]; [done|]. cbn [String.length] in Hn.
    destruct (isWhiteSpace3 c1 c2 c3); [apply IH; lia | done]. }
  apply (H (S (String.length s))). lia.
Qed.

(** A string of white space only is trimmed to the empty string. *)
Lemma trim_allWhiteSpace s : allWhiteSpace s = true -> trim s = EmptyString.
Proof. intros H. apply trimStart_allWhiteSpace in H. unfold trim. by rewrite H. Qed.

(** [trim] drops the white space of one, two and three bytes at both ends
    and keeps what is between, other characters of three bytes
    included. *)
Lemma trim_drops_unicode_white_space :
  trim (noBreakSpace +:+ byteOrderMark +:+ " Home visit" +:+ emSpace
        +:+ lineSeparator) = "Home visit" /\
  trim (emSpace +:+ emDash +:+ " a" +:+ emDash +:+ noBreakSpace)
    = emDash +:+ " a" +:+ emDash /\
  trim (noBreakSpace +:+ emSpace +:+ byteOrderMark) = "" /\
  newLeave 50 asha (Student.mk 20 10 1 (Some "A-101") (Some "R7")) unicodeBody
    = sampleLeave "PendingParent" [created].
Proof. vm_compute. repeat split. Qed.

(** X7.  A creation answered with 201 has stored exactly one new leave,
    under an id no leave had: it belongs to the caller's student and
    institution, carries the reason trimmed and the type, dates and times
    as given, is in status PendingParent with parentApprovalStatus
    Pending, and its history is the one creation entry.  Every leave
    stored before is stored unchanged. *)
Theorem creation_stores_one_pending_leave now user body db :
  statusCode (createLeaveRequest now user body db).1 = 201 ->
  exists id student,
    Student.findOne (user_id user) (user_institutionId user) (students db)
      = Some student /\
    leaves db !! id = None /\
    createLeaveRequest now user body db =
      (mkRes 201 true (Some "Leave request submitted successfully")
         (OneLeave id (newLeave now user student body)),
       withLeaves db (<[id := newLeave now user student body]> (leaves db))) /\
    forall id' l',
      leaves db !! id' = Some l' ->
      leaves (createLeaveRequest now user body db).2 !! id' = Some l'.
Proof.
  intros H201.
  destruct (create_201 now user body db H201)
    as (id & student & Hst & Hfresh & _ & Heq).
  exists id, student. split; [done|]. split; [done|]. split; [done|].
  intros id' l' Hl'. rewrite Heq. simpl.
  rewrite lookup_insert_ne; [done | congruence].
Qed.

Lemma creation_stores_one_pending_leave_witness :
  statusCode (createLeaveRequest 50 asha sampleBody emptyDb).1 = 201 /\
  createLeaveRequest 50 asha sampleBody emptyDb =
    (mkRes 201 true (Some "Leave request submitted successfully")
       (OneLeave 0 (sampleLeave "PendingParent" [created])),
     withLeaves emptyDb {[ 0 := sampleLeave "PendingParent" [created] ]}).
Proof.
  assert (statusCode (createLeaveRequest 50 asha sampleBody emptyDb).1 = 201)
    as H by (vm_compute; reflexivity).
  split; [exact H|].
  destruct (creation_stores_one_pending_leave 50%Z asha sampleBody emptyDb H)
    as (id & student & Hst & Hfresh & Heq & _).
  injection Hst as <-. rewrite Heq.
  assert (id = 0) as ->.
  { apply (f_equal (fun r => match payload r.1 with
                             | OneLeave i _ => i
                             | _ => 1
                             end)) in Heq.
    vm_compute in Heq. congruence. }
  reflexivity.
Defined.

(** X8.  A leave just created is shown to its owner by the listing of own
    leaves, and to every caller of the same institution by the warden's
    listing, unfiltered or filtered by PendingParent. *)
Theorem created_leave_is_listed now user body db id l :
  statusCode (createLeaveRequest now user body db).1 = 201 ->
  payload (createLeaveRequest now user body db).1 = OneLeave id l ->
  let db' := (createLeaveRequest now user body db).2 in
  In (id, l) (disclosed (getMyLeaveRequests user db').1) /\
  forall warden status,
    user_institutionId warden = user_institutionId user ->
    missing status \/ status = Some "PendingParent" ->
    In (id, l) (disclosed (getAllLeaveRequests warden status db').1).
Proof.
  intros H201 Hpay db'. subst db'.
  destruct (create_201 now user body db H201)
    as (id0 & student & Hst & Hfresh & _ & Heq).
  rewrite Heq in Hpay |- *. simpl in Hpay. injection Hpay as <- <-.
  cbn [snd]. split.
  - unfold getMyLeaveRequests. cbn [students withLeaves]. rewrite Hst.
    unfold disclosed. cbn [fst payload leaves].
    apply find_In_iff. unfold withLeaves. cbn [leaves].
    rewrite lookup_insert_eq. simpl. by rewrite !Nat.eqb_refl.
  - intros warden status Hi Hs.
    apply getAll_In_iff. unfold withLeaves. cbn [leaves].
    rewrite lookup_insert_eq. auto.
Qed.

Lemma created_leave_is_listed_witness :
  statusCode (createLeaveRequest 50 asha sampleBody emptyDb).1 = 201 /\
  payload (createLeaveRequest 50 asha sampleBody emptyDb).1
    = OneLeave 0 (sampleLeave "PendingParent" [created]) /\
  In (0, sampleLeave "PendingParent" [created])
    (disclosed (getAllLeaveRequests meera (Some "PendingParent")
                  (createLeaveRequest 50 asha sampleBody emptyDb).2).1).
Proof.
  assert (statusCode (createLeaveRequest 50 asha sampleBody emptyDb).1 = 201)
    as H1 by (vm_compute; reflexivity).
  assert (payload (createLeaveRequest 50 asha sampleBody emptyDb).1
          = OneLeave 0 (sampleLeave "PendingParent" [created]))
    as H2 by (vm_compute; reflexivity).
  split; [exact H1|]. split; [exact H2|].
  apply (proj2 (created_leave_is_listed 50%Z asha sampleBody emptyDb 0
                  (sampleLeave "PendingParent" [created]) H1 H2)
           meera (Some "PendingParent") eq_refl).
  right. reflexivity.
Defined.

(** *** Decisions one after another *)

Lemma warden_check_resolved now user id status reason db l :
  status = "Approved" \/ status = "Rejected" ->
  leaves db !! id = Some l ->
  Leave.institutionId l = user_institutionId user ->
  Leave.status l = "ApprovedByParent" ->
  updateLeaveStatus_check now user id status reason db =
    inr (wardenUpdate now user status reason l).
Proof.
  intros Hs Hl Hi Hap. unfold updateLeaveStatus_check.
  assert (Leave.findOne id (user_institutionId user) (leaves db) = Some l) as ->
    by by apply findOne_Some.
  apply includes_decision in Hs.
  by rewrite Hs, Hap, String.eqb_refl.
Qed.

(** X9.  The whole way to an approved leave: when a creation is answered
    with 201, the guardian linked to the leave's student then approves
    and a caller of the same institution then approves as warden, both
    decisions are answered with 200 and the leave ends in status
    Approved, with the guardian and the warden recorded, the request
    fields as created, and a history of exactly PendingParent,
    ApprovedByParent, Approved. *)
Theorem approved_after_both_decisions
    now1 now2 now3 owner guardian warden body reason2 reason3 db id l parent :
  statusCode (createLeaveRequest now1 owner body db).1 = 201 ->
  payload (createLeaveRequest now1 owner body db).1 = OneLeave id l ->
  Parent.findOne (user_id guardian) (user_institutionId guardian) (parents db)
    = Some parent ->
  Parent.studentId parent = Leave.studentId l ->
  user_institutionId guardian = user_institutionId owner ->
  user_institutionId warden = user_institutionId owner ->
  let db1 := (createLeaveRequest now1 owner body db).2 in
  let r2 := parentApproveOrReject now2 guardian id "Approved" reason2 db1 in
  let r3 := updateLeaveStatus now3 warden id "Approved" reason3 r2.2 in
  statusCode r2.1 = 200 /\ statusCode r3.1 = 200 /\
  exists l3,
    leaves r3.2 !! id = Some l3 /\
    Leave.status l3 = "Approved" /\
    Leave.parentApprovalStatus l3 = "Approved" /\
    Leave.parentApprovedBy l3 = Some (user_id guardian) /\
    Leave.approvedBy l3 = Some (user_id warden) /\
    Leave.approvedAt l3 = Some now3 /\
    HistoryEntry.status <$> Leave.statusHistory l3
      = ["PendingParent"; "ApprovedByParent"; "Approved"] /\
    sameRequest l l3.
Proof.
  intros H201 Hpay Hp Hlink Hig Hiw db1 r2 r3.
  destruct (create_201 now1 owner body db H201)
    as (id0 & student & Hst & Hfresh & Hname & Heq).
  assert (id0 = id /\ newLeave now1 owner student body = l) as [-> El].
  { rewrite Heq in Hpay. simpl in Hpay. by injection Hpay. }
  assert (db1 = withLeaves db (<[id := l]> (leaves db))) as Edb1
    by (unfold db1; by rewrite Heq, El).
  assert (leaves db1 !! id = Some l) as Hl1
    by (rewrite Edb1; apply lookup_insert_eq).
  assert (Leave.studentId l = Student._id student) as Hsid by by rewrite <- El.
  assert (Leave.institutionId l = user_institutionId owner) as Hinst
    by by rewrite <- El.
  assert (Leave.status l = "PendingParent") as Hpend by by rewrite <- El.
  assert (Leave.statusHistory l = [creationEntry now1]) as Hhist
    by by rewrite <- El.
  destruct (student_findOne_findById _ _ _ _ Hst) as [st Hfind].
  rewrite <- Hsid in Hfind.
  (* the guardian *)
  assert (r2 = (mkRes 200 true (Some "Leave request approved by parent")
                  (OneLeave id (parentDecided now2 guardian "Approved" reason2 l)),
                withLeaves db1
                  (<[id := parentDecided now2 guardian "Approved" reason2 l]>
                     (leaves db1)))) as Er2.
  { unfold r2, parentApproveOrReject.
    rewrite (parent_check_resolved now2 guardian id "Approved" reason2 db1
               parent l st); auto.
    - rewrite Hlink, Nat.eqb_refl, Hpend, String.eqb_refl. cbn [negb].
      by rewrite (parent_commit_found _ _ _ _ _ Hl1).
    - by rewrite Edb1.
    - congruence.
    - by rewrite Edb1. }
  set (l2 := parentDecided now2 guardian "Approved" reason2 l) in *.
  assert (leaves r2.2 !! id = Some l2) as Hl2
    by (rewrite Er2; apply lookup_insert_eq).
  (* the warden *)
  assert (updateLeaveStatus_check now3 warden id "Approved" reason3 r2.2
          = inr (wardenUpdate now3 warden "Approved" reason3 l2)) as Echeck.
  { apply warden_check_resolved; auto. simpl. congruence. }
  assert (populatedStudentName
            (withLeaves r2.2
               (<[id := Leave.applyUpdate
                          (wardenUpdate now3 warden "Approved" reason3 l2) l2]>
                  (leaves r2.2)))
            (Leave.applyUpdate (wardenUpdate now3 warden "Approved" reason3 l2) l2)
          = populatedStudentName db (newLeave now1 owner student body)) as Ename.
  { rewrite (populatedStudentName_written _ _ l2) by apply applyUpdate_kept.
    rewrite Er2. cbn [snd].
    rewrite (populatedStudentName_written _ _ l) by done.
    rewrite Edb1, El. by apply populatedStudentName_written. }
  assert (r3 = (mkRes 200 true (Some "Leave request approved successfully")
                  (OneLeave id
                     (Leave.applyUpdate
                        (wardenUpdate now3 warden "Approved" reason3 l2) l2)),
                withLeaves r2.2
                  (<[id := Leave.applyUpdate
                             (wardenUpdate now3 warden "Approved" reason3 l2) l2]>
                     (leaves r2.2)))) as Er3.
  { unfold r3, updateLeaveStatus. rewrite Echeck.
    rewrite (warden_commit_found warden id "Approved" _ r2.2 l2 Hl2)
      by (simpl; congruence).
    rewrite Ename. by destruct Hname as [name ->]. }
  split; [by rewrite Er2|]. split; [by rewrite Er3|].
  eexists. split; [rewrite Er3; apply lookup_insert_eq|].
  rewrite applyUpdate_wardenUpdate by auto. simpl.
  rewrite Hhist. repeat split.
Qed.

Lemma approved_after_both_decisions_witness :
  statusCode (createLeaveRequest 50 asha sampleBody emptyDb).1 = 201 /\
  payload (createLeaveRequest 50 asha sampleBody emptyDb).1
    = OneLeave 0 (sampleLeave "PendingParent" [created]) /\
  Parent.findOne 11 1 sampleParents = Some (Parent.mk 30 11 1 20) /\
  statusCode
    (updateLeaveStatus 70 meera 0 "Approved" None
       (parentApproveOrReject 60 ravi 0 "Approved" None
          (createLeaveRequest 50 asha sampleBody emptyDb).2).2).1 = 200.
Proof.
  assert (statusCode (createLeaveRequest 50 asha sampleBody emptyDb).1 = 201)
    as H1 by (vm_compute; reflexivity).
  assert (payload (createLeaveRequest 50 asha sampleBody emptyDb).1
          = OneLeave 0 (sampleLeave "PendingParent" [created]))
    as H2 by (vm_compute; reflexivity).
  split; [exact H1|]. split; [exact H2|]. split; [reflexivity|].
  exact (proj1 (proj2 (approved_after_both_decisions 50%Z 60%Z 70%Z asha ravi
                         meera sampleBody None None emptyDb 0
                         (sampleLeave "PendingParent" [created])
                         (Parent.mk 30 11 1 20) H1 H2 eq_refl eq_refl
                         eq_refl eq_refl))).
Defined.

(** X10.  An accepted approval changes these fields only: the guardian's
    sets status to ApprovedByParent, parentApprovalStatus to Approved,
    parentApprovedBy to the caller and parentApprovedAt to the time of the
    decision; the warden's sets status to Approved, approvedBy to the
    caller and approvedAt to the time of the decision; each appends one
    history entry without a reason.  A rejection reason sent along with an
    approval is stored nowhere, and all other fields and documents are as
    before. *)
Theorem approval_changes_named_fields_only now user id reason db l :
  leaves db !! id = Some l ->
  (statusCode (parentApproveOrReject now user id "Approved" reason db).1 = 200 ->
   (parentApproveOrReject now user id "Approved" reason db).2 =
     withLeaves db
       (<[id :=
            Leave.mk (Leave.institutionId l) (Leave.studentId l)
              (Leave.reason l) (Leave.type l) (Leave.outDate l)
              (Leave.inDate l) (Leave.outTime l) (Leave.inTime l)
              "ApprovedByParent" "Approved" (Some (user_id user)) (Some now)
              (Leave.parentRejectionReason l)
              (Leave.approvedBy l) (Leave.approvedAt l)
              (Leave.rejectionReason l)
              (Leave.statusHistory l ++
                 [HistoryEntry.mk "ApprovedByParent" (Some (user_id user))
                    "parent" None now])
              (Leave.createdAt l)]> (leaves db))) /\
  (statusCode (updateLeaveStatus now user id "Approved" reason db).1 = 200 ->
   (updateLeaveStatus now user id "Approved" reason db).2 =
     withLeaves db
       (<[id :=
            Leave.mk (Leave.institutionId l) (Leave.studentId l)
              (Leave.reason l) (Leave.type l) (Leave.outDate l)
              (Leave.inDate l) (Leave.outTime l) (Leave.inTime l)
              "Approved" (Leave.parentApprovalStatus l)
              (Leave.parentApprovedBy l) (Leave.parentApprovedAt l)
              (Leave.parentRejectionReason l)
              (Some (user_id user)) (Some now) (Leave.rejectionReason l)
              (Leave.statusHistory l ++
                 [HistoryEntry.mk "Approved" (Some (user_id user))
                    "warden" None now])
              (Leave.createdAt l)]> (leaves db))).
Proof.
  intros Hl. split; intros Hok.
  - by rewrite (accepted_parent_decision _ _ _ _ _ _ _ Hl Hok).
  - rewrite (accepted_warden_decision _ _ _ _ _ _ _ Hl Hok).
    rewrite applyUpdate_wardenUpdate by auto. reflexivity.
Qed.

Lemma approval_changes_named_fields_only_witness :
  leaves (sampleDb "PendingParent" [created]) !! 40
    = Some (sampleLeave "PendingParent" [created]) /\
  statusCode (parentApproveOrReject 60 ravi 40 "Approved" (Some "Exams")
                (sampleDb "PendingParent" [created])).1 = 200 /\
  Leave.parentRejectionReason <$>
    leaves (parentApproveOrReject 60 ravi 40 "Approved" (Some "Exams")
              (sampleDb "PendingParent" [created])).2 !! 40 = Some None.
Proof.
  assert (leaves (sampleDb "PendingParent" [created]) !! 40
          = Some (sampleLeave "PendingParent" [created])) as H1 by reflexivity.
  assert (statusCode (parentApproveOrReject 60 ravi 40 "Approved" (Some "Exams")
                        (sampleDb "PendingParent" [created])).1 = 200) as H2
    by (vm_compute; reflexivity).
  split; [exact H1|]. split; [exact H2|].
  rewrite (proj1 (approval_changes_named_fields_only 60%Z ravi 40
                    (Some "Exams") _ _ H1) H2).
  simpl. rewrite lookup_insert_eq. reflexivity.
Defined.

(** X11.  When the student of a leave, or the user account of that
    student, is missing, a warden decision on the leave (valid, in the
    caller's institution, status ApprovedByParent) is answered with 500,
    and yet the decision has been written: the stored status and history
    are those of the decision. *)
Theorem warden_decision_written_before_500 now user id status reason db l :
  status = "Approved" \/ status = "Rejected" ->
  leaves db !! id = Some l ->
  Leave.institutionId l = user_institutionId user ->
  Leave.status l = "ApprovedByParent" ->
  populatedStudentName db l = None ->
  let r := updateLeaveStatus now user id status reason db in
  r.1 = failure 500 "Server error while updating leave request" /\
  exists l',
    leaves r.2 !! id = Some l' /\ Leave.status l' = status /\
    Leave.approvedBy l' = Some (user_id user) /\
    Leave.statusHistory l' =
      Leave.statusHistory l ++
        [HistoryEntry.mk status (Some (user_id user)) "warden"
           (if String.eqb status "Rejected" then reason else None) now].
Proof.
  intros Hs Hl Hi Hap Hname r. subst r. unfold updateLeaveStatus.
  rewrite (warden_check_resolved _ _ _ _ _ _ _ Hs Hl Hi Hap).
  rewrite (warden_commit_found _ _ _ _ _ _ Hl Hi).
  rewrite (populatedStudentName_written _ _ l) by apply applyUpdate_kept.
  rewrite Hname. split; [done|].
  eexists. split; [apply lookup_insert_eq|].
  rewrite applyUpdate_wardenUpdate by done. done.
Qed.

Lemma warden_decision_written_before_500_witness :
  ("Approved" = "Approved" \/ "Approved" = "Rejected") /\
  leaves (noUsersDb "ApprovedByParent" [created; parentApproved]) !! 40
    = Some raceLeave /\
  populatedStudentName (noUsersDb "ApprovedByParent" [created; parentApproved])
    raceLeave = None /\
  statusCode (updateLeaveStatus 70 meera 40 "Approved" None
                (noUsersDb "ApprovedByParent" [created; parentApproved])).1
    = 500 /\
  Leave.status <$>
    leaves (updateLeaveStatus 70 meera 40 "Approved" None
              (noUsersDb "ApprovedByParent" [created; parentApproved])).2 !! 40
    = Some "Approved".
Proof.
  assert ("Approved" = "Approved" \/ "Approved" = "Rejected") as Hs
    by (left; reflexivity).
  destruct (warden_decision_written_before_500 70%Z meera 40 "Approved" None
              (noUsersDb "ApprovedByParent" [created; parentApproved])
              raceLeave Hs eq_refl eq_refl eq_refl eq_refl)
    as [H1 (l' & Hl' & Hst & _)].
  split; [exact Hs|]. split; [reflexivity|]. split; [reflexivity|].
  split; [by rewrite H1|].
  exact (eq_trans (f_equal (fmap Leave.status) Hl') (f_equal Some Hst)).
Defined.

(** X12.  A creation answered with 500 for a caller with a student
    profile and a document the schema accepts has stored the leave all
    the same: the failure came after the write, from the missing user
    account of the student. *)
Theorem creation_stored_before_500 now user body db student :
  Student.findOne (user_id user) (user_institutionId user) (students db)
    = Some student ->
  Leave.schemaValid (newLeave now user student body) = true ->
  statusCode (createLeaveRequest now user body db).1 = 500 ->
  populatedStudentName db (newLeave now user student body) = None /\
  exists id,
    leaves db !! id = None /\
    leaves (createLeaveRequest now user body db).2 !! id
      = Some (newLeave now user student body).
Proof.
  intros Hst Hvalid. rewrite create_unfold.
  destruct (_ || _); [done|]. destruct (date_ge _ _); [done|].
  rewrite Hst. cbn zeta. rewrite Hvalid.
  destruct (populatedStudentName _ _); [done|]. intros _. split; [done|].
  exists (fresh (dom (leaves db))).
  split; [apply not_elem_of_dom, is_fresh | apply lookup_insert_eq].
Qed.

Lemma creation_stored_before_500_witness :
  Student.findOne 10 1 sampleStudents
    = Some (Student.mk 20 10 1 (Some "A-101") (Some "R7")) /\
  statusCode (createLeaveRequest 50 asha sampleBody
                (mkDb [] sampleStudents sampleParents ∅)).1 = 500 /\
  exists id,
    leaves (createLeaveRequest 50 asha sampleBody
              (mkDb [] sampleStudents sampleParents ∅)).2 !! id
      = Some (sampleLeave "PendingParent" [created]).
Proof.
  assert (statusCode (createLeaveRequest 50 asha sampleBody
                        (mkDb [] sampleStudents sampleParents ∅)).1 = 500)
    as H by (vm_compute; reflexivity).
  split; [reflexivity|]. split; [exact H|].
  destruct (creation_stored_before_500 50%Z asha sampleBody
              (mkDb [] sampleStudents sampleParents ∅)
              (Student.mk 20 10 1 (Some "A-101") (Some "R7"))
              eq_refl eq_refl H) as [_ (id & _ & Hid)].
  exists id. exact Hid.
Defined.



(** *** Deleting a student and the leaves *)

Lemma deleteFirst_In {A} (P : A -> bool) (coll : list A) x :
  In x (deleteFirst P coll) -> In x coll.
Proof.
  induction coll as [|y rest IH]; simpl; [done|].
  destruct (P y); simpl; intuition.
Qed.

Lemma deleteFirst_NoDup {A B} (f : A -> B) (P : A -> bool) (coll : list A) :
  NoDup (f <$> coll) -> NoDup (f <$> deleteFirst P coll).
Proof.
  induction coll as [|y rest IH]; [done|].
  rewrite fmap_cons, NoDup_cons. intros [Hnotin Hnd].
  cbn [deleteFirst]. destruct (P y); [done|].
  rewrite fmap_cons, NoDup_cons. split; [|auto].
  intros Hin. apply Hnotin.
  apply list_elem_of_fmap in Hin as (z & -> & Hz).
  apply list_elem_of_fmap. exists z. split; [done|].
  by apply list_elem_of_In, (deleteFirst_In P), list_elem_of_In.
Qed.

Lemma findById_unique (coll : list Student.t) (s : Student.t) :
  NoDup (Student._id <$> coll) -> In s coll ->
  Student.findById (Student._id s) coll = Some s.
Proof.
  unfold Student.findById.
  induction coll as [|y rest IH]; [done|].
  rewrite fmap_cons, NoDup_cons. intros [Hnotin Hnd] [-> | Hin]; cbn [find].
  - by rewrite Nat.eqb_refl.
  - destruct (Nat.eqb_spec (Student._id y) (Student._id s)) as [Heq|]; [|auto].
    exfalso. apply Hnotin. rewrite Heq.
    apply list_elem_of_fmap. exists s. split; [done | by apply list_elem_of_In].
Qed.

Lemma findById_deleted (coll : list Student.t) (id : ObjectId) :
  NoDup (Student._id <$> coll) ->
  Student.findById id (Student.findByIdAndDelete id coll) = None.
Proof.
  unfold Student.findById, Student.findByIdAndDelete.
  induction coll as [|y rest IH]; [done|].
  rewrite fmap_cons, NoDup_cons. intros [Hnotin Hnd]. cbn [deleteFirst].
  destruct (Nat.eqb_spec (Student._id y) id) as [Heq | Hne].
  - destruct (find _ rest) as [z|] eqn:Hz; [|done].
    exfalso. apply find_some in Hz as [Hin Hid]. apply Nat.eqb_eq in Hid.
    apply Hnotin. rewrite Heq, <- Hid.
    apply list_elem_of_fmap. exists z. split; [done | by apply list_elem_of_In].
  - cbn [find]. destruct (Nat.eqb_spec (Student._id y) id); [done | auto].
Qed.

Lemma findById_other_deleted (coll : list Student.t) (id id' : ObjectId) :
  id' <> id ->
  Student.findById id' (Student.findByIdAndDelete id coll)
  = Student.findById id' coll.
Proof.
  intros Hne. unfold Student.findById, Student.findByIdAndDelete.
  induction coll as [|y rest IH]; [done|]. cbn [deleteFirst find].
  destruct (Nat.eqb_spec (Student._id y) id) as [Heq | Hne'].
  - destruct (Nat.eqb_spec (Student._id y) id'); [congruence | done].
  - cbn [find]. by destruct (Nat.eqb (Student._id y) id').
Qed.

Lemma findOneById_Some id inst coll s :
  Student.findOneById id inst coll = Some s ->
  In s coll /\ Student._id s = id /\ Student.institutionId s = inst.
Proof.
  unfold Student.findOneById. intros H. apply find_some in H as [Hin H].
  apply andb_true_iff in H as [H1 H2].
  by apply Nat.eqb_eq in H1, H2.
Qed.

(** X14.  [deleteStudentEverywhere] answers 404 and changes nothing when
    the caller's institution has no student with the id (a student of
    another institution included).  Otherwise it answers 200 and removes
    exactly the leaves and the guardian links of that student in that
    institution: every other leave and link stays as it was. *)
Theorem deleteStudentEverywhere_removes_leaves_and_links user id db :
  let r := deleteStudentEverywhere user id db in
  match Student.findOneById id (user_institutionId user) (students db) with
  | None => r = (failure 404 "Student not found", db)
  | Some _ =>
      statusCode r.1 = 200 /\
      (forall i l,
         leaves r.2 !! i = Some l <->
         leaves db !! i = Some l /\
         ~ (Leave.studentId l = id /\
            Leave.institutionId l = user_institutionId user)) /\
      (forall p,
         In p (parents r.2) <->
         In p (parents db) /\
         ~ (Parent.studentId p = id /\
            Parent.institutionId p = user_institutionId user))
  end.
Proof.
  unfold deleteStudentEverywhere.
  destruct (Student.findOneById _ _ _) as [student|] eqn:Hst; [|done].
  apply findOneById_Some in Hst as (_ & -> & _). simpl.
  split; [done|]. split.
  - intros i l. unfold Leave.deleteMany. by rewrite map_lookup_filter_Some.
  - intros p. unfold Parent.deleteMany, Parent.ofStudent.
    rewrite filter_In, negb_true_iff, andb_false_iff, !Nat.eqb_neq.
    split; intros [Hin H]; (split; [done|]); [tauto|].
    destruct (decide (Parent.studentId p = id)); [right; tauto | by left].
Qed.

(** X15.  [deleteStudent] removes the student and the user account and
    keeps every leave and guardian link.  With student ids unique, a
    guardian decision (decision value valid, guardian profile found) on a
    leave the deleted student has left behind in the caller's institution
    is from then on answered with 500 and changes nothing. *)
Theorem deleteStudent_leaves_leaves_behind
    user id db now guardian lid status reason l parent :
  uniqueStudentIds db ->
  statusCode (deleteStudent user id db).1 = 200 ->
  leaves db !! lid = Some l ->
  Leave.studentId l = id ->
  Leave.institutionId l = user_institutionId guardian ->
  status = "Approved" \/ status = "Rejected" ->
  Parent.findOne (user_id guardian) (user_institutionId guardian) (parents db)
    = Some parent ->
  let db1 := (deleteStudent user id db).2 in
  leaves db1 = leaves db /\ parents db1 = parents db /\
  parentApproveOrReject now guardian lid status reason db1
    = (failure 500 "Server error while updating leave request", db1).
Proof.
  intros Huniq Hok Hl Hsid Hi Hs Hp db1. subst db1. revert Hok.
  unfold deleteStudent.
  destruct (Student.findOneById _ _ _) as [student|]; [|done]. intros _.
  simpl. split; [done|]. split; [done|].
  unfold parentApproveOrReject, parentApproveOrReject_check.
  cbn [parents leaves students].
  apply includes_decision in Hs. rewrite Hs, Hp. cbn [negb].
  assert (Leave.findOne lid (user_institutionId guardian) (leaves db) = Some l)
    as -> by by apply findOne_Some.
  by rewrite Hsid, findById_deleted.
Qed.

Lemma deleteStudent_leaves_leaves_behind_witness :
  uniqueStudentIds (sampleDb "PendingParent" [created]) /\
  statusCode (deleteStudent meera 20 (sampleDb "PendingParent" [created])).1
    = 200 /\
  leaves (sampleDb "PendingParent" [created]) !! 40
    = Some (sampleLeave "PendingParent" [created]) /\
  ("Approved" = "Approved" \/ "Approved" = "Rejected") /\
  Parent.findOne 11 1 sampleParents = Some (Parent.mk 30 11 1 20) /\
  statusCode
    (parentApproveOrReject 60 ravi 40 "Approved" None
       (deleteStudent meera 20 (sampleDb "PendingParent" [created])).2).1
    = 500.
Proof.
  assert (uniqueStudentIds (sampleDb "PendingParent" [created])) as Hu.
  { unfold uniqueStudentIds. simpl. apply NoDup_cons.
    split; [rewrite list_elem_of_singleton; lia | apply NoDup_singleton]. }
  assert (statusCode (deleteStudent meera 20
                        (sampleDb "PendingParent" [created])).1 = 200) as Hok
    by reflexivity.
  assert ("Approved" = "Approved" \/ "Approved" = "Rejected") as Hs
    by (left; reflexivity).
  split; [exact Hu|]. split; [exact Hok|]. split; [reflexivity|].
  split; [exact Hs|]. split; [reflexivity|].
  destruct (deleteStudent_leaves_leaves_behind meera 20
              (sampleDb "PendingParent" [created]) 60%Z ravi 40 "Approved" None
              (sampleLeave "PendingParent" [created]) (Parent.mk 30 11 1 20)
              Hu Hok eq_refl eq_refl eq_refl Hs eq_refl) as (_ & _ & H).
  exact (f_equal (fun r => statusCode r.1) H).
Defined.

Lemma student_findOne_Some uid inst coll s :
  Student.findOne uid inst coll = Some s ->
  In s coll /\ Student.userId s = uid /\ Student.institutionId s = inst.
Proof.
  unfold Student.findOne. intros H. apply find_some in H as [Hin H].
  apply andb_true_iff in H as [H1 H2].
  by apply Nat.eqb_eq in H1, H2.
Qed.

Lemma serve_keeps_students r db : students (serve r db).2 = students db.
Proof.
  destruct r as [now user body | user status | user | now user id0 e reason];
    simpl.
  - by destruct (create_outcome now user body db)
      as [[-> _] | (id1 & l1 & _ & -> & _)].
  - done.
  - unfold getMyLeaveRequests. by destruct (Student.findOne _ _ _).
  - by destruct (handle_written now user id0 e reason db)
      as [-> | (l0 & l' & _ & -> & _)].
Qed.

Lemma serve_keeps_leavesHaveStudents r db :
  uniqueStudentIds db -> leavesHaveStudents db ->
  leavesHaveStudents (serve r db).2.
Proof.
  intros Huniq Hinv id l.
  pose proof (serve_keeps_students r db) as Hstud. rewrite Hstud. revert Hstud.
  destruct r as [now user body | user status | user | now user id0 e reason];
    simpl; intros _.
  - rewrite create_unfold.
    destruct (_ || _); [apply Hinv|]. destruct (date_ge _ _); [apply Hinv|].
    destruct (Student.findOne _ _ _) as [student|] eqn:Hst; [|apply Hinv].
    cbn zeta. destruct (Leave.schemaValid _); [|apply Hinv]. simpl.
    destruct (decide (fresh (dom (leaves db)) = id)) as [<- | Hne].
    + rewrite lookup_insert_eq. intros [= <-]. simpl.
      apply student_findOne_Some in Hst as (Hin & _ & Hi).
      exists student. split; [by apply findById_unique | done].
    + rewrite lookup_insert_ne by done. apply Hinv.
  - apply Hinv.
  - unfold getMyLeaveRequests. destruct (Student.findOne _ _ _); apply Hinv.
  - destruct (handle_written now user id0 e reason db)
      as [-> | (l0 & l' & Hl0 & -> & _ & Hsame & _)]; [apply Hinv|].
    simpl. destruct (decide (id0 = id)) as [-> | Hne].
    + rewrite lookup_insert_eq. intros [= <-].
      destruct Hsame as (Hi & Hs & _). rewrite Hi, Hs. by eapply Hinv.
    + rewrite lookup_insert_ne by done. apply Hinv.
Qed.

Lemma deleteEverywhere_keeps_leavesHaveStudents user id db :
  uniqueStudentIds db -> leavesHaveStudents db ->
  uniqueStudentIds (deleteStudentEverywhere user id db).2 /\
  leavesHaveStudents (deleteStudentEverywhere user id db).2.
Proof.
  intros Huniq Hinv. unfold deleteStudentEverywhere.
  destruct (Student.findOneById _ _ _) as [student|] eqn:Hst; [|done].
  apply findOneById_Some in Hst as (Hin & <- & Hinst). simpl. split.
  - by apply deleteFirst_NoDup.
  - intros i l Hl. simpl in Hl. unfold Leave.deleteMany in Hl.
    apply map_lookup_filter_Some in Hl as [Hl Hkeep]. simpl in Hkeep.
    destruct (Hinv i l Hl) as (st & Hfind & Hsti). simpl.
    destruct (decide (Leave.studentId l = Student._id student)) as [Heq | Hne].
    + exfalso. apply Hkeep. split; [done|].
      rewrite Heq, (findById_unique _ _ Huniq Hin) in Hfind. congruence.
    + exists st. by rewrite findById_other_deleted.
Qed.

(** X16.  With student ids unique, the leave controller and
    [deleteStudentEverywhere] together keep every leave attached to an
    existing student of the leave's own institution: if that holds of the
    database, it holds after any sequence of leave requests and such
    deletions. *)
Theorem leaves_keep_their_students os db :
  uniqueStudentIds db -> leavesHaveStudents db ->
  uniqueStudentIds (performAll os db) /\ leavesHaveStudents (performAll os db).
Proof.
  revert db. induction os as [|o os IH]; intros db Huniq Hinv; simpl; [done|].
  apply IH; destruct o as [r | user id]; simpl.
  - unfold uniqueStudentIds. by rewrite serve_keeps_students.
  - by apply deleteEverywhere_keeps_leavesHaveStudents.
  - by apply serve_keeps_leavesHaveStudents.
  - by apply deleteEverywhere_keeps_leavesHaveStudents.
Qed.

Lemma leaves_keep_their_students_witness :
  uniqueStudentIds (sampleDb "PendingParent" [created]) /\
  leavesHaveStudents (sampleDb "PendingParent" [created]) /\
  leavesHaveStudents
    (performAll [OnLeaves (CreateLeave 50 bina sampleBody);
                 DeleteEverywhere meera 20;
                 OnLeaves (Decide 60 kiran 0 (ParentDecide "Approved") None)]
       (sampleDb "PendingParent" [created])).
Proof.
  assert (uniqueStudentIds (sampleDb "PendingParent" [created])) as Hu.
  { unfold uniqueStudentIds. simpl. apply NoDup_cons.
    split; [rewrite list_elem_of_singleton; lia | apply NoDup_singleton]. }
  assert (leavesHaveStudents (sampleDb "PendingParent" [created])) as Hinv.
  { intros i l Hl. simpl in Hl. apply lookup_singleton_Some in Hl as [_ <-].
    eexists. split; reflexivity. }
  split; [exact Hu|]. split; [exact Hinv|].
  exact (proj2 (leaves_keep_their_students
                  [OnLeaves (CreateLeave 50 bina sampleBody);
                   DeleteEverywhere meera 20;
                   OnLeaves (Decide 60 kiran 0 (ParentDecide "Approved") None)]
                  (sampleDb "PendingParent" [created]) Hu Hinv)).
Defined.

(** *** The repair script *)

Lemma filter_all {A} (P : A -> bool) (ls : list A) :
  (forall x, In x ls -> P x = true) -> List.filter P ls = ls.
Proof.
  induction ls as [|x ls IH]; simpl; [done|]. intros H.
  rewrite (H x) by auto. f_equal. apply IH. auto.
Qed.

Lemma filter_none {A} (P : A -> bool) (ls : list A) :
  (forall x, In x ls -> P x = false) -> List.filter P ls = [].
Proof.
  induction ls as [|x ls IH]; simpl; [done|]. intros H.
  rewrite (H x) by auto. apply IH. auto.
Qed.

Lemma raw_In (coll : gmap ObjectId RawLeave.t) x :
  In x (map_to_list coll).*2 <-> exists i, coll !! i = Some x.
Proof.
  rewrite <- list_elem_of_In, list_elem_of_fmap. split.
  - intros ([i y] & -> & Hin). exists i. by apply elem_of_map_to_list.
  - intros [i Hi]. exists (i, x). split; [done|]. by apply elem_of_map_to_list.
Qed.

Lemma updateMany_lookup inst (coll : gmap ObjectId RawLeave.t) i :
  (RawLeave.updateMany inst coll).1 !! i =
    (fun l => if RawLeave.withoutInstitution l
              then RawLeave.setInstitution inst l else l) <$> coll !! i.
Proof. unfold RawLeave.updateMany. simpl. apply lookup_fmap. Qed.

Lemma updateMany_fixed inst (coll : gmap ObjectId RawLeave.t) i x :
  (RawLeave.updateMany inst coll).1 !! i = Some x ->
  RawLeave.withInstitution x = true.
Proof.
  rewrite updateMany_lookup. destruct (coll !! i) as [l|]; [|done].
  simpl. intros [= <-]. unfold RawLeave.withoutInstitution.
  destruct l as [[inst0|] ? ? ?]; done.
Qed.

(** X18.  The repair script leaves no record without institution: a
    record that had none gets the given one, its other fields as they
    were; a record that had one is untouched; none is added or removed.
    The script reports as many modified records as it found without
    institution, and a final count equal to the total, so that it always
    prints the tally by status. *)
Theorem finalFix_fills_every_institution inst coll :
  let r := finalFix inst coll in
  (forall i,
     r.2 !! i =
       (fun l =>
          match RawLeave.institutionId l with
          | Some _ => l
          | None =>
              RawLeave.mk (Some inst) (RawLeave.studentId l)
                (RawLeave.status l) (RawLeave.reason l)
          end) <$> coll !! i) /\
  (forall i l, r.2 !! i = Some l -> is_Some (RawLeave.institutionId l)) /\
  found r.1 = modifiedCount r.1 /\
  found r.1 = RawLeave.countDocuments RawLeave.withoutInstitution coll /\
  finalCheck r.1 = size coll /\
  total r.1 = size coll /\
  is_Some (byStatus r.1).
Proof.
  unfold finalFix.
  assert (forall P,
            (forall x, P x = true \/ P x = RawLeave.withInstitution x) ->
            RawLeave.countDocuments P (RawLeave.updateMany inst coll).1
            = size coll) as Hcount.
  { intros P HP. unfold RawLeave.countDocuments, RawLeave.find.
    rewrite filter_all.
    - rewrite length_fmap, length_map_to_list.
      unfold RawLeave.updateMany. simpl. apply map_size_fmap.
    - intros x Hx. apply raw_In in Hx as [i Hi].
      destruct (HP x) as [? | ->]; [done|]. by eapply updateMany_fixed. }
  destruct (RawLeave.updateMany inst coll) as [coll' modified] eqn:E.
  assert (coll' = (RawLeave.updateMany inst coll).1) as -> by by rewrite E.
  assert (modified = (RawLeave.updateMany inst coll).2) as -> by by rewrite E.
  simpl. rewrite !Hcount by auto. rewrite Nat.eqb_refl.
  split; [|split; [|by eauto 10]].
  - intros i. rewrite lookup_fmap. destruct (coll !! i) as [l|]; [|done].
    simpl. f_equal. unfold RawLeave.withoutInstitution.
    by destruct (RawLeave.institutionId l).
  - intros i l Hl. apply (updateMany_fixed inst coll) in Hl.
    unfold RawLeave.withInstitution in Hl.
    by destruct (RawLeave.institutionId l).
Qed.

(** X19.  Run again on its own result, with whatever institution, the
    repair script finds nothing to do: no record without institution, none
    modified, and the collection as it is. *)
Theorem finalFix_second_run_changes_nothing inst inst' coll :
  let r := finalFix inst' (finalFix inst coll).2 in
  found r.1 = 0 /\ modifiedCount r.1 = 0 /\ r.2 = (finalFix inst coll).2.
Proof.
  assert ((finalFix inst coll).2 = (RawLeave.updateMany inst coll).1) as ->.
  { unfold finalFix. by destruct (RawLeave.updateMany inst coll). }
  set (coll1 := (RawLeave.updateMany inst coll).1).
  assert (forall x, In x (map_to_list coll1).*2 ->
                    RawLeave.withoutInstitution x = false) as Hnone.
  { intros x Hx. apply raw_In in Hx as [i Hi].
    apply updateMany_fixed in Hi. revert Hi.
    unfold RawLeave.withInstitution, RawLeave.withoutInstitution.
    by destruct (RawLeave.institutionId x). }
  unfold finalFix, RawLeave.updateMany, RawLeave.countDocuments, RawLeave.find.
  simpl. rewrite !filter_none by done. simpl.
  split; [done|]. split; [done|].
  apply map_eq. intros i. rewrite lookup_fmap.
  destruct (coll1 !! i) as [x|] eqn:Hi; [|done]. simpl.
  rewrite Hnone; [done|]. apply raw_In. eauto.
Qed.

Lemma tallyStep_other (m : gmap string TallyValue) (l : RawLeave.t) s :
  RawLeave.status l <> s -> tallyStep m l !! s = m !! s.
Proof.
  intros Hne. unfold tallyStep.
  destruct (m !! RawLeave.status l) as [[n|]|];
    [by rewrite lookup_insert_ne .. |].
  destruct (includes inheritedKeys _); [|by rewrite lookup_insert_ne].
  destruct (String.eqb _ _); [done | by rewrite lookup_insert_ne].
Qed.

Lemma tally_lookup (ls : list RawLeave.t) (m : gmap string TallyValue) s :
  includes inheritedKeys s = false ->
  foldl tallyStep m ls !! s =
  match m !! s, countStatus s ls with
  | None, 0 => None
  | None, c => Some (Count c)
  | Some (Count n), c => Some (Count (n + c))
  | Some Text, _ => Some Text
  end.
Proof.
  intros Hs. revert m. induction ls as [|l ls IH]; intros m.
  - unfold countStatus. simpl.
    destruct (m !! s) as [[n|]|]; [f_equal; f_equal; lia | done | done].
  - cbn [foldl]. rewrite IH. unfold countStatus. cbn [List.filter].
    destruct (String.eqb_spec (RawLeave.status l) s) as [Heq | Hne].
    + unfold tallyStep. rewrite Heq. cbn [length].
      destruct (m !! s) as [[n|]|].
      * rewrite lookup_insert_eq. f_equal. f_equal. lia.
      * by rewrite lookup_insert_eq.
      * rewrite Hs, lookup_insert_eq. f_equal.
    + by rewrite tallyStep_other.
Qed.

Lemma tally_inherited (ls : list RawLeave.t) (m : gmap string TallyValue) s :
  includes inheritedKeys s = true ->
  (forall n, m !! s <> Some (Count n)) ->
  forall n, foldl tallyStep m ls !! s <> Some (Count n).
Proof.
  intros Hs. revert m. induction ls as [|l ls IH]; intros m Hm; [done|].
  cbn [foldl]. apply IH. intros n.
  destruct (String.eqb_spec (RawLeave.status l) s) as [Heq | Hne].
  - unfold tallyStep. rewrite Heq.
    destruct (m !! s) as [[k|]|] eqn:E.
    + by destruct (Hm k).
    + by rewrite lookup_insert_eq.
    + rewrite Hs. destruct (String.eqb s "__proto__").
      * by rewrite E.
      * by rewrite lookup_insert_eq.
  - rewrite tallyStep_other by done. apply Hm.
Qed.

Lemma finalFix_tally_shape inst coll :
  byStatus (finalFix inst coll).1 =
    Some (tallyByStatus
            (RawLeave.find (fun _ => true) (RawLeave.updateMany inst coll).1)) /\
  (finalFix inst coll).2 = (RawLeave.updateMany inst coll).1.
Proof.
  unfold finalFix.
  destruct (RawLeave.updateMany inst coll) as [coll' modified] eqn:E. simpl.
  assert (coll' = (RawLeave.updateMany inst coll).1) as -> by by rewrite E.
  assert (forall P,
            (forall x, P x = true \/ P x = RawLeave.withInstitution x) ->
            RawLeave.countDocuments P (RawLeave.updateMany inst coll).1
            = size coll) as Hcount.
  { intros P HP. unfold RawLeave.countDocuments, RawLeave.find.
    rewrite filter_all.
    - rewrite length_fmap, length_map_to_list.
      unfold RawLeave.updateMany. simpl. apply map_size_fmap.
    - intros x Hx. apply raw_In in Hx as [i Hi].
      destruct (HP x) as [? | ->]; [done|]. by eapply updateMany_fixed. }
  rewrite !Hcount by auto. by rewrite Nat.eqb_refl.
Qed.

(** X20.  The tally the repair script prints holds, for every status that
    is not a name inherited from [Object.prototype], the number of records
    with that status, and has no entry for such a status no record has.
    Under an inherited name ([constructor], [toString], ...) it never
    holds a count. *)
Theorem finalFix_tally_counts_each_status inst coll s :
  exists tally,
    byStatus (finalFix inst coll).1 = Some tally /\
    if includes inheritedKeys s
    then forall n, tally !! s <> Some (Count n)
    else
      tally !! s =
        match countStatus s (map_to_list (finalFix inst coll).2).*2 with
        | 0 => None
        | c => Some (Count c)
        end.
Proof.
  destruct (finalFix_tally_shape inst coll) as [Hby Hcoll].
  eexists. split; [exact Hby|].
  destruct (includes inheritedKeys s) eqn:Hs.
  - apply tally_inherited; [done|]. intros n. by rewrite lookup_empty.
  - unfold tallyByStatus. rewrite tally_lookup, lookup_empty by done.
    unfold RawLeave.find. rewrite filter_all by done. by rewrite Hcoll.
Qed.

(** The tally of three records, one of them with the status
    [constructor] and one with the status [__proto__]. *)
Lemma tally_with_inherited_names :
  let tally :=
    tallyByStatus [RawLeave.mk (Some 1) 20 "Approved" "Home visit";
                   RawLeave.mk (Some 1) 20 "constructor" "Home visit";
                   RawLeave.mk (Some 1) 21 "__proto__" "Home visit";
                   RawLeave.mk (Some 1) 21 "Approved" "Festival"] in
  tally !! "Approved" = Some (Count 2) /\
  tally !! "constructor" = Some Text /\
  tally !! "__proto__" = None /\
  size tally = 2.
Proof. vm_compute. repeat split. Qed.
